(** * Service registry and API gateway of the shopping-list microservices

    A shallow embedding of [shared/serviceRegistry.js] (the file-based
    service registry) and of the [APIGateway] class (circuit breaker,
    reverse proxy, bearer check, dashboard and search aggregation), with
    the properties the specification states about them.

    Conventions.  A JavaScript [throw] is the left injection of a sum, a
    normal return the right one.  [Date.now()], [process.pid], the registry
    file and the network are inputs of the functions that read them.
    Console output is not modelled. *)

From stdpp Require Import gmap strings list fin_maps pretty.

#[local] Set Warnings "-register-all".
#[local] Open Scope string_scope.
#[local] Open Scope Z_scope.

(** ** JavaScript values, errors and strings *)

Module JS.

(** The one-character string holding a double quote. *)
Definition dquote : string := String (Ascii.ascii_of_nat 34) EmptyString.

(** [s.startsWith(p)] *)
Definition startsWith (s p : string) : bool := String.prefix p s.

(** [s.includes(p)]: [p] occurs somewhere in [s]. *)
Fixpoint includes (s p : string) : bool :=
  if String.prefix p s then true
  else match s with
       | EmptyString => false
       | String _ rest => includes rest p
       end.

Fixpoint drop_chars (n : nat) (s : string) : string :=
  match n, s with
  | O, _ => s
  | S n', String _ rest => drop_chars n' rest
  | S _, EmptyString => EmptyString
  end.

(** [s.replace(p, r)] with a string pattern: only the first occurrence of
    [p] is replaced. *)
Fixpoint replace (s p r : string) : string :=
  if String.prefix p s then r +:+ drop_chars (String.length p) s
  else match s with
       | EmptyString => EmptyString
       | String c rest => String c (replace rest p r)
       end.

(** Values that come out of [JSON.parse] (plus [undefined]).  Numbers are
    the integers; fractional values play no part in the gateway. *)
Inductive JsVal :=
| JUndefined
| JNull
| JBool (b : bool)
| JNum (n : Z)
| JStr (s : string)
| JArr (elements : list JsVal)
| JObj (fields : gmap string JsVal).

(** The truthiness test of [if (v)], [v || d] and [c ? a : b]. *)
Definition truthy (v : JsVal) : bool :=
  match v with
  | JUndefined | JNull => false
  | JBool b => b
  | JNum n => negb (n =? 0)
  | JStr s => negb (String.eqb s EmptyString)
  | JArr _ | JObj _ => true
  end.

(** [a || b] *)
Definition or_else (a b : JsVal) : JsVal := if truthy a then a else b.

(** Number of UTF-16 code units of a string stored as UTF-8 bytes: one per
    code point, one more for each four-byte sequence. *)
Fixpoint utf16_length (s : string) : Z :=
  match s with
  | EmptyString => 0
  | String c rest =>
      let b := Z.of_N (Ascii.N_of_ascii c) in
      (if (b <? 128) || (192 <=? b) then 1 else 0)
      + (if 240 <=? b then 1 else 0) + utf16_length rest
  end.

Record HttpResponse := { status : Z; data : JsVal }.

(** What a [catch (error)] clause of the gateway looks at: [error.message],
    [error.code] (set by the HTTP client on socket errors) and
    [error.response] (set by the HTTP client when the peer answered with
    an error status). *)
Record Error := {
  message : string;
  code : option string;
  response : option HttpResponse
}.

(** [new Error(msg)] *)
Definition new_Error (msg : string) : Error :=
  {| message := msg; code := None; response := None |}.

Definition Result (A : Type) : Type := Error + A.
Definition Return {A} (a : A) : Result A := inr a.
Definition Throw {A} (e : Error) : Result A := inl e.

(** [TypeError] raised by a property read on [undefined] or [null]. *)
Definition TypeError_read (base : JsVal) (prop : string) : Error :=
  new_Error ("Cannot read properties of "
             +:+ match base with JNull => "null" | _ => "undefined" end
             +:+ " (reading '" +:+ prop +:+ "')").

(** [TypeError] raised when an object has no usable [toString] or
    [valueOf]. *)
Definition TypeError_convert : Error :=
  new_Error "Cannot convert object to primitive value".

(** Template-literal conversion [`${v}`] of a value parsed from JSON.
    Primitives are rendered by name, numbers by [Number_toString] (the
    platform's rendering of a number, a parameter here).  An array is the
    comma-separated rendering of its elements, [null] and [undefined]
    elements counting as empty.  A plain object is rendered by the
    [toString] it inherits, unless it has an own field of that name: such
    a field holds a JSON value, which is not callable, the inherited
    [valueOf] answers the object itself, and the conversion throws. *)
Fixpoint ToString (Number_toString : Z → string) (v : JsVal)
  : Result string :=
  match v with
  | JUndefined => Return "undefined"
  | JNull => Return "null"
  | JBool true => Return "true"
  | JBool false => Return "false"
  | JNum n => Return (Number_toString n)
  | JStr s => Return s
  | JArr elements =>
      (fix join (l : list JsVal) : Result string :=
         match l with
         | [] => Return EmptyString
         | e :: rest =>
             match match e with
                   | JUndefined | JNull => Return EmptyString
                   | _ => ToString Number_toString e
                   end with
             | inl error => Throw error
             | inr first =>
                 match rest with
                 | [] => Return first
                 | _ :: _ =>
                     match join rest with
                     | inl error => Throw error
                     | inr others => Return (first +:+ "," +:+ others)
                     end
                 end
             end
         end) elements
  | JObj fields =>
      match fields !! "toString" with
      | Some _ => Throw TypeError_convert
      | None => Return "[object Object]"
      end
  end.

(** [v.prop] for the property names the gateway reads from JSON payloads
    ([database], [userCount], [data], [length], ...): none of them is an
    array index or a built-in method, so only own fields and the [length]
    of arrays and strings answer. *)
Definition get (v : JsVal) (prop : string) : Result JsVal :=
  match v with
  | JUndefined | JNull => Throw (TypeError_read v prop)
  | JObj fields => Return (default JUndefined (fields !! prop))
  | JArr elements =>
      Return (if String.eqb prop "length"
              then JNum (Z.of_nat (length elements)) else JUndefined)
  | JStr s =>
      Return (if String.eqb prop "length"
              then JNum (utf16_length s) else JUndefined)
  | JBool _ | JNum _ => Return JUndefined
  end.

(** [v?.prop] *)
Definition get_opt (v : JsVal) (prop : string) : JsVal :=
  match v with
  | JUndefined | JNull => JUndefined
  | _ => match get v prop with inr x => x | inl _ => JUndefined end
  end.

(** Names every object created by [JSON.parse] or by a literal inherits
    from [Object.prototype]; each of them reads as a truthy value. *)
Definition Object_prototype_keys : list string :=
  [ "constructor"; "__defineGetter__"; "__defineSetter__"; "hasOwnProperty";
    "__lookupGetter__"; "__lookupSetter__"; "isPrototypeOf";
    "propertyIsEnumerable"; "toString"; "valueOf"; "__proto__";
    "toLocaleString" ].

End JS.

Import JS.

(** ** The file-based service registry ([shared/serviceRegistry.js]) *)

Module ServiceRegistry.

(** The argument of [register]: [{ url, version, endpoints }]. *)
Record ServiceInfo := {
  info_url : string;
  info_version : string;
  info_endpoints : list string
}.

(** One entry of [services-registry.json]. *)
Record ServiceRecord := {
  url : string;
  version : string;
  endpoints : list string;
  registeredAt : Z;
  lastHealthCheck : Z;
  healthy : bool;
  pid : Z
}.

Definition set_health (h : bool) (now : Z) (service : ServiceRecord)
  : ServiceRecord :=
  {| url := url service; version := version service;
     endpoints := endpoints service; registeredAt := registeredAt service;
     lastHealthCheck := now; healthy := h; pid := pid service |}.

(** The registry file as the registry sees it: absent, present but not
    readable as JSON ([readFileSync] or [JSON.parse] throws), or holding a
    table of records, which is what [writeRegistry] always writes.  A file
    that parses to some other JSON value is not represented.
    [writeFileSync] is taken to succeed: its [catch] in [writeRegistry]
    only logs. *)
Inductive RegistryFile :=
| Missing
| Unreadable
| Table (services : gmap string ServiceRecord).

Definition existsSync (file : RegistryFile) : bool :=
  match file with Missing => false | _ => true end.

Definition is_table (file : RegistryFile) : bool :=
  match file with Table _ => true | _ => false end.

(** [readRegistry]: the [catch] branch answers the empty object. *)
Definition readRegistry (file : RegistryFile) : gmap string ServiceRecord :=
  match file with
  | Table services => services
  | Missing | Unreadable => ∅
  end.

Definition writeRegistry (services : gmap string ServiceRecord)
    (file : RegistryFile) : RegistryFile :=
  Table services.

Definition ensureRegistryFile (file : RegistryFile) : RegistryFile :=
  if negb (existsSync file) then writeRegistry ∅ file else file.

(** [new FileBasedServiceRegistry()] *)
Definition constructor (file : RegistryFile) : RegistryFile :=
  ensureRegistryFile file.

(** What [services[name]] evaluates to on a table freshly parsed from the
    file: the own entry, else the member every object inherits from
    [Object.prototype] (a function or object, hence truthy, and without a
    [healthy] field as long as nothing has written one onto it), else
    [undefined]. *)
Inductive Property :=
| Own (service : ServiceRecord)
| Inherited
| Undefined.

Definition services_get (services : gmap string ServiceRecord)
    (name : string) : Property :=
  match services !! name with
  | Some service => Own service
  | None =>
      if bool_decide (name ∈ Object_prototype_keys) then Inherited
      else Undefined
  end.

(** [services[name] = record]: creates or replaces the own entry, except
    that on an object without an own ["__proto__"] entry the assignment to
    that name goes to the inherited setter and adds no entry. *)
Definition services_set (services : gmap string ServiceRecord)
    (name : string) (record : ServiceRecord) : gmap string ServiceRecord :=
  match services !! name with
  | None => if String.eqb name "__proto__" then services
            else <[name := record]> services
  | Some _ => <[name := record]> services
  end.

(** [register]; the two [Date.now()] readings are [t1] and [t2]. *)
Definition register (serviceName : string) (serviceInfo : ServiceInfo)
    (t1 t2 : Z) (process_pid : Z) (file : RegistryFile) : RegistryFile :=
  let services := readRegistry file in
  writeRegistry
    (services_set services serviceName
       {| url := info_url serviceInfo; version := info_version serviceInfo;
          endpoints := info_endpoints serviceInfo;
          registeredAt := t1; lastHealthCheck := t2;
          healthy := true; pid := process_pid |})
    file.

Definition ServiceNotFound (serviceName : string) : Error :=
  new_Error ("Serviço não encontrado: " +:+ serviceName).

Definition ServiceUnavailable (serviceName : string) : Error :=
  new_Error ("Serviço indisponível: " +:+ serviceName).

(** [discover] *)
Definition discover (serviceName : string) (file : RegistryFile)
  : Result ServiceRecord :=
  let services := readRegistry file in
  match services_get services serviceName with
  | Undefined => Throw (ServiceNotFound serviceName)
  | Inherited => Throw (ServiceUnavailable serviceName)
  | Own service =>
      if negb (healthy service) then Throw (ServiceUnavailable serviceName)
      else Return service
  end.

(** One value of the object [listServices] answers.  [registeredAt] keeps
    the instant that the source prints with [toISOString]. *)
Record ServiceSummary := {
  sum_url : string;
  sum_healthy : bool;
  sum_registeredAt : Z;
  uptime : Z;
  sum_pid : Z
}.

(** [new Date(t).toISOString()] throws a [RangeError] outside the range
    of valid time values. *)
Definition valid_time (t : Z) : bool :=
  (-8640000000000000 <=? t) && (t <=? 8640000000000000).

Definition RangeError_time : Error := new_Error "Invalid time value".

(** [listServices]; the answer is a fresh object literal, so an entry
    named ["__proto__"] is not copied into it. *)
Definition listServices (now : Z) (file : RegistryFile)
  : Result (gmap string ServiceSummary) :=
  let services := readRegistry file in
  if bool_decide (map_Forall (fun _ service =>
                    valid_time (registeredAt service) = true) services)
  then Return ((fun service =>
                  {| sum_url := url service; sum_healthy := healthy service;
                     sum_registeredAt := registeredAt service;
                     uptime := now - registeredAt service;
                     sum_pid := pid service |})
               <$> delete "__proto__" services)
  else Throw RangeError_time.

(** [unregister] *)
Definition unregister (serviceName : string) (file : RegistryFile)
  : bool * RegistryFile :=
  let services := readRegistry file in
  match services_get services serviceName with
  | Undefined => (false, file)
  | Own _ | Inherited =>
      (true, writeRegistry (delete serviceName services) file)
  end.

(** [updateHealth].  On an inherited name the two assignments land on the
    shared prototype member, which the file does not record; the table is
    then written back as it was read. *)
Definition updateHealth (serviceName : string) (h : bool) (now : Z)
    (file : RegistryFile) : RegistryFile :=
  let services := readRegistry file in
  match services_get services serviceName with
  | Undefined => file
  | Inherited => writeRegistry services file
  | Own service =>
      writeRegistry (<[serviceName := set_health h now service]> services)
        file
  end.

(** [hasService]: the method [hasOwnProperty] is itself looked up on the
    table, so an entry of that name hides it. *)
Definition hasService (serviceName : string) (file : RegistryFile)
  : Result bool :=
  let services := readRegistry file in
  match services !! "hasOwnProperty" with
  | Some _ => Throw (new_Error "services.hasOwnProperty is not a function")
  | None => Return (bool_decide (is_Some (services !! serviceName)))
  end.

(** [getStats]: [(total, healthy, unhealthy)]. *)
Definition getStats (file : RegistryFile) : nat * nat * nat :=
  let services := readRegistry file in
  (size services,
   size (filter (fun entry => healthy entry.2 = true) services),
   size (filter (fun entry => healthy entry.2 = false) services)).

Definition clear (file : RegistryFile) : RegistryFile := writeRegistry ∅ file.

(** The body of the [forEach] in [cleanup]: one entry of the snapshot
    [Object.entries(services)] against the table being edited and the
    [changed] flag. *)
Definition cleanup_entry (currentPid : Z)
    (acc : gmap string ServiceRecord * bool)
    (entry : string * ServiceRecord) : gmap string ServiceRecord * bool :=
  if bool_decide (pid entry.2 = currentPid)
  then (delete entry.1 acc.1, true)
  else acc.

(** [cleanup], run by the process whose identifier is [currentPid]. *)
Definition cleanup (currentPid : Z) (file : RegistryFile) : RegistryFile :=
  let services := readRegistry file in
  let '(services', changed) :=
    foldl (cleanup_entry currentPid) (services, false)
      (map_to_list services) in
  if changed then writeRegistry services' file else file.

(** *** The health sweep *)

(** [Object.entries(services)]: the entries of the table, in the order
    [order] in which the object enumerates its keys (an order the finite
    map does not record). *)
Definition Object_entries (order : list string)
    (services : gmap string ServiceRecord) : list (string * ServiceRecord) :=
  omap (λ name, (λ service, (name, service)) <$> services !! name) order.

Section HealthSweep.

Context {World : Type}.

(** [Date.now()] and [axios.get(url, { timeout: 5000, family: 4 })] as
    the sweep sees them: a reading of the world, and a call that answers
    or throws and changes the world. *)
Variable Date_now : World → Z.
Variable healthGet : string → World → Result HttpResponse * World.

(** The body of the loop of [performHealthChecks]: one probe of the
    entry of the snapshot, then [updateHealth] on the file as it is at
    that moment. *)
Definition healthCheck_entry (acc : RegistryFile * World)
    (entry : string * ServiceRecord) : RegistryFile * World :=
  match healthGet (url entry.2 +:+ "/health") acc.2 with
  | (inr _, w') => (updateHealth entry.1 true (Date_now w') acc.1, w')
  | (inl _, w') => (updateHealth entry.1 false (Date_now w') acc.1, w')
  end.

(** [performHealthChecks]: the table is read once, then every entry of
    that snapshot is probed in turn. *)
Definition performHealthChecks (order : list string) (file : RegistryFile)
    (w : World) : RegistryFile * World :=
  let services := readRegistry file in
  foldl healthCheck_entry (file, w) (Object_entries order services).

(** The world after the probes of a list of entries, whatever they
    answer. *)
Definition afterProbes (entries : list (string * ServiceRecord)) (w : World)
  : World :=
  foldl (λ w entry, (healthGet (url entry.2 +:+ "/health") w).2) w entries.

End HealthSweep.

(** The fields of a record that the sweep does not write. *)
Definition static (service : ServiceRecord)
  : string * string * list string * Z * Z :=
  (url service, version service, endpoints service, registeredAt service,
   pid service).

End ServiceRegistry.

(** ** The API gateway *)

Module APIGateway.

Import ServiceRegistry.

(** *** Requests, responses and the outside world *)

(** The configuration object handed to the HTTP client. *)
Record AxiosConfig := {
  method : string;
  cfg_url : string;
  cfg_data : JsVal;
  cfg_headers : gmap string JsVal;
  params : gmap string JsVal;
  timeout : Z
}.

(** The inbound request: [req.method], [req.originalUrl], [req.headers]
    (lower-cased names), [req.body], [req.query]. *)
Record IncomingRequest := {
  req_method : string;
  originalUrl : string;
  req_headers : gmap string string;
  req_body : JsVal;
  query : gmap string JsVal
}.

(** What the handler sends back: [res.status(..)], [res.set(..)],
    [res.json(..)]. *)
Record ServerResponse := {
  statusCode : Z;
  res_headers : gmap string string;
  body : JsVal
}.

(** [res.status(code).json(payload)] *)
Definition json (code : Z) (payload : JsVal) : ServerResponse :=
  {| statusCode := code; res_headers := ∅; body := payload |}.

(** Everything the gateway process does not own: the clock, the registry
    file shared with the other processes, and the network behind the HTTP
    client.  A request may change the world in any way (time passes, other
    processes rewrite the registry, peers change state).
    [Number_toString] is the rendering of a number by the platform, as a
    template literal uses it; it does not depend on the world. *)
Class Runtime (World : Type) := {
  Date_now : World → Z;
  registryFile : World → RegistryFile;
  axios : AxiosConfig → World → Result HttpResponse * World;
  Number_toString : Z → string
}.

(** Computations that read and change a state [S] and may throw; a thrown
    error keeps the state reached so far. *)
Definition Js (S A : Type) : Type := S → Result A * S.

#[global] Instance Js_ret {S} : MRet (Js S) := λ A a s, (Return a, s).

#[global] Instance Js_bind {S} : MBind (Js S) := λ A B k m s,
  match m s with
  | (inr a, s') => k a s'
  | (inl e, s') => (Throw e, s')
  end.

Definition throw {S A} (e : Error) : Js S A := λ s, (Throw e, s).

(** Evaluation of an expression that may throw without touching the
    state. *)
Definition eval {S A} (r : Result A) : Js S A := λ s, (r, s).

(** [try { body } catch (error) { handler }] *)
Definition try_catch {S A} (body : Js S A) (handler : Error → Js S A)
  : Js S A :=
  λ s, match body s with
       | (inl e, s') => handler e s'
       | (inr a, s') => (Return a, s')
       end.

(** *** Circuit breaker *)

Inductive BreakerState := closed | open | half_open.

Record CircuitBreaker := {
  state : BreakerState;
  failureCount : nat;
  lastFailTime : Z
}.

Definition BreakerState_eqb (a b : BreakerState) : bool :=
  match a, b with
  | closed, closed | open, open | half_open, half_open => true
  | _, _ => false
  end.

Definition new_breaker : CircuitBreaker :=
  {| state := closed; failureCount := 0; lastFailTime := 0 |}.

(** [getCircuitBreaker]: the entry is created on first use. *)
Definition getCircuitBreaker (serviceName : string)
    (circuitBreakers : gmap string CircuitBreaker)
  : CircuitBreaker * gmap string CircuitBreaker :=
  match circuitBreakers !! serviceName with
  | Some circuitBreaker => (circuitBreaker, circuitBreakers)
  | None => (new_breaker, <[serviceName := new_breaker]> circuitBreakers)
  end.

Definition CircuitOpen (serviceName : string) : Error :=
  new_Error ("Circuit breaker aberto para " +:+ serviceName).

(** The test on entry of [executeWithCircuitBreaker]: an open breaker
    either moves to half-open or refuses the call. *)
Definition breaker_entry (serviceName : string) (now : Z)
    (circuitBreaker : CircuitBreaker) : Result CircuitBreaker :=
  match state circuitBreaker with
  | open =>
      if 30000 <? now - lastFailTime circuitBreaker
      then Return {| state := half_open;
                     failureCount := failureCount circuitBreaker;
                     lastFailTime := lastFailTime circuitBreaker |}
      else Throw (CircuitOpen serviceName)
  | closed | half_open => Return circuitBreaker
  end.

(** Bookkeeping after the operation returned. *)
Definition breaker_success (circuitBreaker : CircuitBreaker)
  : CircuitBreaker :=
  match state circuitBreaker with
  | half_open => {| state := closed; failureCount := 0;
                    lastFailTime := lastFailTime circuitBreaker |}
  | closed | open => circuitBreaker
  end.

(** Bookkeeping in the [catch] clause. *)
Definition breaker_failure (now : Z) (circuitBreaker : CircuitBreaker)
  : CircuitBreaker :=
  let count := S (failureCount circuitBreaker) in
  {| state := if (3 <=? count)%nat then open else state circuitBreaker;
     failureCount := count;
     lastFailTime := now |}.

(** A breaker that is not closed has counted at least three failures. *)
Definition breaker_ok (circuitBreaker : CircuitBreaker) : Prop :=
  state circuitBreaker ≠ closed → (3 ≤ failureCount circuitBreaker)%nat.

Section Gateway.

Context {World : Type} `{Runtime World}.

(** [executeWithCircuitBreaker].  The breaker object lives in the map and
    is edited in place; the operation acts on the outside world only. *)
Definition executeWithCircuitBreaker {A} (serviceName : string)
    (operation : Js World A)
    (circuitBreakers : gmap string CircuitBreaker) (w : World)
  : Result A * gmap string CircuitBreaker * World :=
  let '(circuitBreaker, circuitBreakers) :=
    getCircuitBreaker serviceName circuitBreakers in
  match breaker_entry serviceName (Date_now w) circuitBreaker with
  | inl refused => (Throw refused, circuitBreakers, w)
  | inr circuitBreaker =>
      match operation w with
      | (inr result, w') =>
          (Return result,
           <[serviceName := breaker_success circuitBreaker]> circuitBreakers,
           w')
      | (inl error, w') =>
          (Throw error,
           <[serviceName := breaker_failure (Date_now w') circuitBreaker]>
             circuitBreakers,
           w')
      end
  end.

(** Calls made one after the other through the breaker of one target. *)
Fixpoint callsThrough {A} (serviceName : string)
    (operations : list (Js World A))
    (circuitBreakers : gmap string CircuitBreaker) (w : World)
  : list (Result A) * gmap string CircuitBreaker * World :=
  match operations with
  | [] => ([], circuitBreakers, w)
  | operation :: rest =>
      let '(outcome, circuitBreakers', w') :=
        executeWithCircuitBreaker serviceName operation circuitBreakers w in
      let '(outcomes, circuitBreakers'', w'') :=
        callsThrough serviceName rest circuitBreakers' w' in
      (outcome :: outcomes, circuitBreakers'', w'')
  end.

(** *** Reverse proxy *)

(** [serviceRegistry.discover] as seen from a handler: the file is read
    from the world at that instant. *)
Definition registry_discover (serviceName : string)
  : Js World ServiceRecord :=
  λ w, (discover serviceName (registryFile w), w).

(** Public prefix to internal prefix. *)
Definition rewritePath (targetPath : string) : string :=
  if startsWith targetPath "/api/users"
  then replace targetPath "/api/users" "/users"
  else if startsWith targetPath "/api/auth"
  then replace targetPath "/api/auth" "/auth"
  else if startsWith targetPath "/api/items"
  then replace targetPath "/api/items" "/items"
  else if startsWith targetPath "/api/categories"
  then replace targetPath "/api/categories" "/categories"
  else if startsWith targetPath "/api/lists"
  then replace targetPath "/api/lists" "/lists"
  else targetPath.

(** The request the proxy forwards. *)
Definition forwarded (req : IncomingRequest) (url : string) : AxiosConfig :=
  {| method := req_method req;
     cfg_url := url;
     cfg_data := req_body req;
     cfg_headers :=
       <["content-length" := JUndefined]>
         (<["host" := JUndefined]> (JStr <$> req_headers req));
     params := ∅;
     timeout := 10000 |}.

(** The [catch] clause of [proxyToService]. *)
Definition proxyError (serviceName : string) (error : Error)
  : ServerResponse :=
  if includes (message error) "Circuit breaker aberto" then
    json 503 (JObj {[ "success" := JBool false;
                      "message" := JStr "Serviço temporariamente indisponível";
                      "service" := JStr serviceName;
                      "error" := JStr "Circuit breaker aberto" ]})
  else if bool_decide (code error = Some "ECONNREFUSED")
          || includes (message error) "não encontrado" then
    json 503 (JObj {[ "success" := JBool false;
                      "message" := JStr "Serviço indisponível";
                      "service" := JStr serviceName ]})
  else match response error with
       | Some downstream => json (status downstream) (data downstream)
       | None =>
           json 500 (JObj {[ "success" := JBool false;
                             "message" := JStr "Erro interno do gateway";
                             "service" := JStr serviceName ]})
       end.

(** [proxyToService] *)
Definition proxyToService (serviceName : string) (req : IncomingRequest)
    (circuitBreakers : gmap string CircuitBreaker) (w : World)
  : ServerResponse * gmap string CircuitBreaker * World :=
  let '(outcome, circuitBreakers', w') :=
    match discover serviceName (registryFile w) with
    | inl error => (Throw error, circuitBreakers, w)
    | inr service =>
        let targetPath := rewritePath (originalUrl req) in
        let url := url service +:+ targetPath in
        executeWithCircuitBreaker serviceName (axios (forwarded req url))
          circuitBreakers w
    end in
  match outcome with
  | inr result =>
      ({| statusCode := status result;
          res_headers := {[ "X-Proxied-By" := "api-gateway";
                            "X-Service-Source" := serviceName ]};
          body := data result |},
       circuitBreakers', w')
  | inl error => (proxyError serviceName error, circuitBreakers', w')
  end.

(** The names the routing table binds to [proxyToService]. *)
Definition routedServices : list string :=
  [ "user-service"; "item-service"; "list-service" ].

(** *** Bearer check *)

(** [axios.get(url, { timeout })] *)
Definition axios_get (url : string) (ms : Z) : Js World HttpResponse :=
  axios {| method := "get"; cfg_url := url; cfg_data := JUndefined;
           cfg_headers := ∅; params := ∅; timeout := ms |}.

(** The two calls each block of the aggregation starts with: discovery of
    the service, then [GET {url}/health]. *)
Definition healthProbe (serviceName : string) : Js World HttpResponse :=
  service ← registry_discover serviceName;
  axios_get (url service +:+ "/health") 5000.

(** How [authMiddleware] ends: it calls [next()] with [req.user] set, or
    it answers by itself. *)
Inductive AuthOutcome :=
| Next (user : JsVal)
| Answered (res : ServerResponse).

Definition tokenRequired : ServerResponse :=
  json 401 (JObj {[ "success" := JBool false;
                    "message" := JStr "Token obrigatório" ]}).

Definition tokenInvalid : ServerResponse :=
  json 401 (JObj {[ "success" := JBool false;
                    "message" := JStr "Token inválido" ]}).

(** The request [authMiddleware] sends to the identity service. *)
Definition validation (userService : ServiceRecord) (authHeader : string)
  : AxiosConfig :=
  {| method := "post";
     cfg_url := url userService +:+ "/auth/validate";
     cfg_data :=
       JObj {[ "token" := JStr (replace authHeader "Bearer " EmptyString) ]};
     cfg_headers := ∅; params := ∅; timeout := 5000 |}.

(** [authMiddleware]; [req.header('Authorization')] reads the lower-cased
    header table. *)
Definition authMiddleware (req : IncomingRequest) : Js World AuthOutcome :=
  match req_headers req !! "authorization" with
  | None => mret (Answered tokenRequired)
  | Some authHeader =>
      if negb (startsWith authHeader "Bearer ")
      then mret (Answered tokenRequired)
      else
        try_catch
          (userService ← registry_discover "user-service";
           response ← axios (validation userService authHeader);
           success ← eval (get (data response) "success");
           if truthy success
           then payload ← eval (get (data response) "data");
                user ← eval (get payload "user");
                mret (Next user)
           else mret (Answered (json 401 (data response))))
          (λ error, mret (Answered tokenInvalid))
  end.

(** *** Dashboard aggregation *)

(** The object under construction: [dashboard.user], [dashboard.services]
    and [dashboard.summary] ([dashboard.timestamp], a rendering of the
    clock, is left out). *)
Record Dashboard := {
  user : JsVal;
  services : gmap string JsVal;
  summary : gmap string JsVal
}.

Definition Dashboard_json (dashboard : Dashboard) : JsVal :=
  JObj {[ "user" := user dashboard;
          "services" := JObj (services dashboard);
          "summary" := JObj (summary dashboard) ]}.

(** [dashboard.services[key] = value] during the aggregation. *)
Definition set_service (key : string) (value : JsVal)
  : Js (Dashboard * World) () :=
  λ s, (Return (),
        ({| user := user s.1; services := <[key := value]> (services s.1);
            summary := summary s.1 |}, s.2)).

(** [dashboard.summary[key] = value] during the aggregation. *)
Definition set_summary (key : string) (value : JsVal)
  : Js (Dashboard * World) () :=
  λ s, (Return (),
        ({| user := user s.1; services := services s.1;
            summary := <[key := value]> (summary s.1) |}, s.2)).

(** An awaited call to the outside world during the aggregation. *)
Definition await {A} (call : Js World A) : Js (Dashboard * World) A :=
  λ s, let '(r, w') := call s.2 in (r, (s.1, w')).

(** [response.data.database?.[field] || 0] *)
Definition countOf (response : HttpResponse) (field : string)
  : Result JsVal :=
  match get (data response) "database" with
  | inl e => Throw e
  | inr database => Return (or_else (get_opt database field) (JNum 0))
  end.

(** [response.data.data?.length || 0] *)
Definition lengthOf (response : HttpResponse) : Result JsVal :=
  match get (data response) "data" with
  | inl e => Throw e
  | inr payload => Return (or_else (get_opt payload "length") (JNum 0))
  end.

Definition healthyReport (counts : gmap string JsVal) : JsVal :=
  JObj (<["status" := JStr "healthy"]> counts).

Definition unhealthyReport (error : Error) : JsVal :=
  JObj {[ "status" := JStr "unhealthy"; "error" := JStr (message error) ]}.

(** The field [user] of the dashboard:
    [user ? { id, name: `${user.firstName} ${user.lastName}`, email } : null].
    The two conversions of the template literal may throw. *)
Definition dashboardUser (user : JsVal) : Result JsVal :=
  if truthy user
  then match ToString Number_toString (get_opt user "firstName") with
       | inl error => Throw error
       | inr firstName =>
           match ToString Number_toString (get_opt user "lastName") with
           | inl error => Throw error
           | inr lastName =>
               Return (JObj {[ "id" := get_opt user "id";
                               "name" := JStr (firstName +:+ " " +:+ lastName);
                               "email" := get_opt user "email" ]})
           end
       end
  else Return JNull.

(** The object literal [dashboard] once its field [user] has been
    evaluated to [userField]: no service reported yet, every count of the
    summary at zero. *)
Definition initialDashboard (userField : JsVal) : Dashboard :=
  {| user := userField;
     services := ∅;
     summary := {[ "totalUsers" := JNum 0; "totalItems" := JNum 0;
                   "activeItems" := JNum 0; "totalLists" := JNum 0;
                   "activeLists" := JNum 0; "userLists" := JNum 0;
                   "categories" := JNum 0 ]} |}.

(** The block commented [User Service stats]. *)
Definition userSection : Js (Dashboard * World) () :=
  try_catch
    (userService ← await (registry_discover "user-service");
     userHealth ← await (axios_get (url userService +:+ "/health") 5000);
     userCount ← eval (countOf userHealth "userCount");
     set_service "userService"
       (healthyReport {[ "userCount" := userCount ]});;
     totalUsers ← eval (countOf userHealth "userCount");
     set_summary "totalUsers" totalUsers)
    (λ error, set_service "userService" (unhealthyReport error)).

(** The block commented [Item Service stats]. *)
Definition itemSection : Js (Dashboard * World) () :=
  try_catch
    (itemService ← await (registry_discover "item-service");
     itemHealth ← await (axios_get (url itemService +:+ "/health") 5000);
     itemCount ← eval (countOf itemHealth "itemCount");
     activeItems ← eval (countOf itemHealth "activeItems");
     set_service "itemService"
       (healthyReport {[ "itemCount" := itemCount;
                         "activeItems" := activeItems ]});;
     totalItems ← eval (countOf itemHealth "itemCount");
     set_summary "totalItems" totalItems;;
     activeItems' ← eval (countOf itemHealth "activeItems");
     set_summary "activeItems" activeItems';;
     categoriesResponse ←
       await (axios_get (url itemService +:+ "/categories") 5000);
     categories ← eval (lengthOf categoriesResponse);
     set_summary "categories" categories)
    (λ error, set_service "itemService" (unhealthyReport error)).

(** The options of the request for the lists of the authenticated user:
    [{ headers: { Authorization: `Bearer ${user.token || ''}` },
       timeout: 5000 }] on [{url}/lists].  The conversion of the token by
    the template literal may throw. *)
Definition userListsRequest (listService : ServiceRecord) (user : JsVal)
  : Result AxiosConfig :=
  match ToString Number_toString
          (or_else (get_opt user "token") (JStr EmptyString)) with
  | inl error => Throw error
  | inr token =>
      Return {| method := "get";
                cfg_url := url listService +:+ "/lists";
                cfg_data := JUndefined;
                cfg_headers := {[ "Authorization" := JStr ("Bearer " +:+ token) ]};
                params := ∅; timeout := 5000 |}
  end.

(** The block commented [List Service stats]. *)
Definition listSection (user : JsVal) : Js (Dashboard * World) () :=
  try_catch
    (listService ← await (registry_discover "list-service");
     listHealth ← await (axios_get (url listService +:+ "/health") 5000);
     listCount ← eval (countOf listHealth "listCount");
     activeLists ← eval (countOf listHealth "activeLists");
     set_service "listService"
       (healthyReport {[ "listCount" := listCount;
                         "activeLists" := activeLists ]});;
     totalLists ← eval (countOf listHealth "listCount");
     set_summary "totalLists" totalLists;;
     activeLists' ← eval (countOf listHealth "activeLists");
     set_summary "activeLists" activeLists';;
     if truthy user
     then try_catch
            (request ← eval (userListsRequest listService user);
             userListsResponse ← await (axios request);
             userLists ← eval (lengthOf userListsResponse);
             set_summary "userLists" userLists)
            (λ error, set_summary "userLists" (JNum 0))
     else mret ())
    (λ error, set_service "listService" (unhealthyReport error)).

(** [aggregateDashboardData].  The object literal is evaluated first,
    outside every [try]: when the field [user] cannot be built the
    function throws before any call is made. *)
Definition aggregateDashboardData (user : JsVal) : Js World Dashboard :=
  λ w, match dashboardUser user with
       | inl error => (Throw error, w)
       | inr userField =>
           let '(r, (dashboard, w')) :=
             (userSection;; itemSection;; listSection user)
               (initialDashboard userField, w) in
           (match r with inl e => Throw e | inr _ => Return dashboard end, w')
       end.

(** The route [GET /api/dashboard], behind [authMiddleware]. *)
Definition dashboardRoute (req : IncomingRequest) : Js World ServerResponse :=
  auth ← authMiddleware req;
  match auth with
  | Answered res => mret res
  | Next user =>
      try_catch
        (dashboard ← aggregateDashboardData user;
         mret (json 200 (JObj {[ "success" := JBool true;
                                 "data" := Dashboard_json dashboard ]})))
        (λ error,
           mret (json 500 (JObj {[ "success" := JBool false;
                                   "message" :=
                                     JStr "Erro ao carregar dashboard" ]})))
  end.

(** *** Global search *)

(** The request [performGlobalSearch] sends to the item service. *)
Definition itemSearch (itemService : ServiceRecord) (query : JsVal)
  : AxiosConfig :=
  {| method := "get"; cfg_url := url itemService +:+ "/search";
     cfg_data := JUndefined; cfg_headers := ∅;
     params := {[ "q" := query ]}; timeout := 5000 |}.

(** [v === s] for a string literal [s]. *)
Definition is_string (v : JsVal) (s : string) : bool :=
  match v with JStr s' => String.eqb s' s | _ => false end.

Record SearchResults := { items : JsVal; lists : JsVal }.

(** [performGlobalSearch] *)
Definition performGlobalSearch (query type : JsVal)
  : Js World SearchResults :=
  items ←
    (if is_string type "all" || is_string type "items"
     then try_catch
            (itemService ← registry_discover "item-service";
             itemResults ← axios (itemSearch itemService query);
             payload ← eval (get (data itemResults) "data");
             mret (or_else (get_opt payload "results") (JArr [])))
            (λ error, mret (JArr []))
     else mret (JArr []));
  mret {| items := items;
          lists := if is_string type "lists" then JArr [] else JArr [] |}.

(** The route [GET /api/search]. *)
Definition searchRoute (req : IncomingRequest) : Js World ServerResponse :=
  let q := default JUndefined (query req !! "q") in
  let type := match query req !! "type" with
              | None | Some JUndefined => JStr "all"
              | Some t => t
              end in
  if negb (truthy q)
  then mret (json 400 (JObj {[ "success" := JBool false;
                               "message" :=
                                 JStr ("Parâmetro de busca " +:+ dquote +:+ "q"
                                       +:+ dquote +:+ " é obrigatório") ]}))
  else
    try_catch
      (results ← performGlobalSearch q type;
       mret (json 200
               (JObj {[ "success" := JBool true;
                        "data" := JObj {[ "query" := q; "type" := type;
                                          "results" :=
                                            JObj {[ "items" := items results;
                                                    "lists" := lists results ]} ]} ]})))
      (λ error, mret (json 500 (JObj {[ "success" := JBool false;
                                        "message" := JStr "Erro na busca" ]}))).

End Gateway.

(** *** A scripted world

    A world for running the gateway on concrete inputs: the clock, the
    registry file, the replies the network will give to the next requests
    (each with the time it takes), and the requests sent so far.  Once the
    script is used up, connections are refused. *)

Record Scripted := {
  clock : Z;
  file : RegistryFile;
  replies : list (Z * Result HttpResponse);
  sent : list AxiosConfig
}.

Definition ECONNREFUSED : Error :=
  {| message := "connect ECONNREFUSED 127.0.0.1:3002";
     code := Some "ECONNREFUSED"; response := None |}.

Definition scripted_axios (config : AxiosConfig) (w : Scripted)
  : Result HttpResponse * Scripted :=
  match replies w with
  | (elapsed, reply) :: rest =>
      (reply, {| clock := clock w + elapsed; file := file w;
                 replies := rest; sent := sent w ++ [config] |})
  | [] =>
      (Throw ECONNREFUSED,
       {| clock := clock w; file := file w; replies := [];
          sent := sent w ++ [config] |})
  end.

(** Numbers are rendered in decimal, which is how the platform renders
    the integers of the sample data (all below [2^53]). *)
#[global] Instance Scripted_runtime : Runtime Scripted :=
  {| Date_now := clock; registryFile := file; axios := scripted_axios;
     Number_toString := pretty |}.

Definition sampleRecord (port : string) (up : bool) (owner : Z)
  : ServiceRecord :=
  {| url := "http://localhost:" +:+ port; version := "1.0.0";
     endpoints := ["/health"]; registeredAt := 1000;
     lastHealthCheck := 2000; healthy := up; pid := owner |}.

Definition sampleRequest (path : string) : IncomingRequest :=
  {| req_method := "GET"; originalUrl := path; req_headers := ∅;
     req_body := JUndefined; query := ∅ |}.

Definition advance (ms : Z) (w : Scripted) : Scripted :=
  {| clock := clock w + ms; file := file w; replies := replies w;
     sent := sent w |}.

Definition serverError : Error :=
  {| message := "Request failed with status code 500";
     code := Some "ERR_BAD_RESPONSE";
     response := Some {| status := 500;
                         data := JObj {[ "success" := JBool false ]} |} |}.

Definition okResponse : HttpResponse :=
  {| status := 200; data := JObj {[ "success" := JBool true ]} |}.

Definition scriptedWorld (now : Z) (store : RegistryFile)
    (script : list (Z * Result HttpResponse)) : Scripted :=
  {| clock := now; file := store; replies := script; sent := [] |}.

(** The call the proxy wraps for [GET /api/items] on a local item
    service. *)
Definition itemsCall : Js Scripted HttpResponse :=
  axios (forwarded (sampleRequest "/api/items") "http://localhost:3002/items").

Definition breakerOf (st : BreakerState) (n : nat) (t : Z)
  : gmap string CircuitBreaker :=
  {[ "svc-b" := {| state := st; failureCount := n; lastFailTime := t |} ]}.

(** A registry in which the item and list services are up and the user
    service is not registered, and the replies of their health, category
    and search endpoints. *)
Definition sampleStore : RegistryFile :=
  Table {[ "item-service" := sampleRecord "3002" true 4242;
           "list-service" := sampleRecord "3003" true 4343 ]}.

Definition itemHealth : HttpResponse :=
  {| status := 200;
     data := JObj {[ "status" := JStr "healthy";
                     "database" := JObj {[ "itemCount" := JNum 7;
                                           "activeItems" := JNum 5 ]} ]} |}.

Definition categoriesReply : HttpResponse :=
  {| status := 200;
     data := JObj {[ "success" := JBool true;
                     "data" := JArr [JStr "Alimentos"; JStr "Limpeza"] ]} |}.

Definition listHealth : HttpResponse :=
  {| status := 200;
     data := JObj {[ "status" := JStr "healthy";
                     "database" := JObj {[ "listCount" := JNum 4;
                                           "activeLists" := JNum 2 ]} ]} |}.

Definition searchReply : HttpResponse :=
  {| status := 200;
     data := JObj {[ "success" := JBool true;
                     "data" := JObj {[ "results" := JArr [JStr "Arroz"] ]} ]} |}.


Definition searchWorld : Scripted :=
  scriptedWorld 0 sampleStore [(3, Return searchReply)].

Definition bearerRequest : IncomingRequest :=
  {| req_method := "GET"; originalUrl := "/api/dashboard";
     req_headers := {[ "authorization" := "Bearer abc.def.ghi" ]};
     req_body := JUndefined; query := ∅ |}.

Definition unhealthyIdentityWorld : Scripted :=
  scriptedWorld 0
    (Table {[ "user-service" := sampleRecord "3001" false 4141 ]})
    [(3, Return okResponse)].

(** *** Further routes and vocabulary *)

(** A breaker between two calls: closed or open, and not closed only
    after three failures. *)
Definition breaker_at_rest (circuitBreaker : CircuitBreaker) : Prop :=
  state circuitBreaker ≠ half_open ∧ breaker_ok circuitBreaker.

Section ItemSearch.

Context {World : Type} `{Runtime World}.

(** [new URLSearchParams(req.query).toString()], the form encoding of the
    query table by the platform. *)
Variable URLSearchParams_toString : gmap string JsVal → string.



End ItemSearch.

(** The probe of the health sweep in the scripted world. *)
Definition scripted_healthGet (url : string) (w : Scripted)
  : Result HttpResponse * Scripted :=
  scripted_axios {| method := "get"; cfg_url := url; cfg_data := JUndefined;
                    cfg_headers := ∅; params := ∅; timeout := 5000 |} w.

(** Further sample data for runs in the scripted world. *)
Definition sweepStore : RegistryFile :=
  Table {[ "item-service" := sampleRecord "3002" true 4242;
           "list-service" := sampleRecord "3003" true 4343 ]}.

Definition upStore : RegistryFile :=
  Table {[ "item-service" := sampleRecord "3002" true 4242 ]}.

Definition notFoundError : Error :=
  {| message := "Request failed with status code 404";
     code := Some "ERR_BAD_REQUEST";
     response := Some {| status := 404;
                         data := JObj {[ "success" := JBool false ]} |} |}.

Definition listsReply : HttpResponse :=
  {| status := 200;
     data := JObj {[ "success" := JBool true;
                     "data" := JArr [JStr "Mercado"; JStr "Feira";
                                     JStr "Farmácia"] ]} |}.

Definition principal : JsVal :=
  JObj {[ "id" := JStr "u-1"; "firstName" := JStr "Ana";
          "lastName" := JStr "Lima"; "email" := JStr "ana@example.com" ]}.


(** A principal whose [firstName] is the object [JSON.parse] builds from
    [{"toString":1}], and one whose [token] is. *)
Definition unnamedPrincipal : JsVal :=
  JObj {[ "id" := JStr "u-2";
          "firstName" := JObj {[ "toString" := JNum 1 ]};
          "lastName" := JStr "Lima"; "email" := JStr "lima@example.com" ]}.

Definition opaqueTokenPrincipal : JsVal :=
  JObj {[ "id" := JStr "u-3"; "firstName" := JStr "Rui";
          "lastName" := JStr "Melo"; "email" := JStr "rui@example.com";
          "token" := JObj {[ "toString" := JNum 1 ]} ]}.

(** The reply of the identity service to a validation that succeeds for
    [user]. *)
Definition validated (user : JsVal) : HttpResponse :=
  {| status := 200;
     data := JObj {[ "success" := JBool true;
                     "data" := JObj {[ "user" := user ]} ]} |}.

(** The three services registered and up; the identity service validates
    the token for [unnamedPrincipal], and the item and list services are
    ready to answer their health, category and list endpoints. *)
Definition unnamedPrincipalWorld : Scripted :=
  scriptedWorld 0
    (Table {[ "user-service" := sampleRecord "3001" true 4141;
              "item-service" := sampleRecord "3002" true 4242;
              "list-service" := sampleRecord "3003" true 4343 ]})
    [(3, Return (validated unnamedPrincipal)); (3, Return okResponse);
     (3, Return itemHealth); (3, Return categoriesReply);
     (3, Return listHealth); (3, Return listsReply)].


End APIGateway.

(** ** Properties of the service registry *)

Module RegistryFacts.

Import ServiceRegistry.

Lemma not_found_is_not_unavailable (a b : string) :
  ServiceNotFound a ≠ ServiceUnavailable b.
Proof.
  unfold ServiceNotFound, ServiceUnavailable, new_Error.
  intros E. simpl in E. discriminate E.
Qed.

Lemma regular_name (name : string) :
  bool_decide (name ∈ Object_prototype_keys) = false →
  name ∉ Object_prototype_keys.
Proof. apply bool_decide_eq_false. Qed.

Lemma services_get_own (services : gmap string ServiceRecord) name service :
  services !! name = Some service →
  services_get services name = Own service.
Proof. intros E. unfold services_get. by rewrite E. Qed.

Lemma services_get_regular (services : gmap string ServiceRecord) name :
  name ∉ Object_prototype_keys →
  services !! name = None →
  services_get services name = Undefined.
Proof.
  intros Hname E. unfold services_get. rewrite E.
  by rewrite bool_decide_eq_false_2.
Qed.

(** *** [discover] on names that [Object.prototype] does not define *)

Lemma discover_not_found_iff name file :
  name ∉ Object_prototype_keys →
  discover name file = Throw (ServiceNotFound name)
  ↔ readRegistry file !! name = None.
Proof.
  intros Hname. unfold discover.
  destruct (readRegistry file !! name) as [service|] eqn:E.
  - rewrite (services_get_own _ _ _ E). split; [|done].
    destruct (healthy service); simpl; intros F; [discriminate F|].
    apply (inj inl) in F. symmetry in F.
    by apply not_found_is_not_unavailable in F.
  - by rewrite (services_get_regular _ _ Hname E).
Qed.

Lemma discover_unavailable_iff name file :
  name ∉ Object_prototype_keys →
  discover name file = Throw (ServiceUnavailable name)
  ↔ ∃ service, readRegistry file !! name = Some service
               ∧ healthy service = false.
Proof.
  intros Hname. unfold discover.
  destruct (readRegistry file !! name) as [service|] eqn:E.
  - rewrite (services_get_own _ _ _ E).
    destruct (healthy service) eqn:Hh; simpl; split.
    + intros F. discriminate F.
    + intros (s & Hs & Hf). congruence.
    + intros _. by exists service.
    + done.
  - rewrite (services_get_regular _ _ Hname E). split.
    + intros F. apply (inj inl) in F.
      by apply not_found_is_not_unavailable in F.
    + intros (s & Hs & _). discriminate Hs.
Qed.

Lemma discover_returns_iff name file service :
  discover name file = Return service
  ↔ readRegistry file !! name = Some service ∧ healthy service = true.
Proof.
  unfold discover, services_get.
  destruct (readRegistry file !! name) as [stored|] eqn:E.
  - destruct (healthy stored) eqn:Hh; simpl; split.
    + intros F. apply (inj inr) in F. by subst.
    + intros [F _]. by simplify_eq.
    + intros F. discriminate F.
    + intros [F Hs]. simplify_eq. congruence.
  - case_bool_decide; split; (intros F; try discriminate F);
      destruct F as [F _]; discriminate F.
Qed.

Lemma discover_after_unregister name file :
  name ∉ Object_prototype_keys →
  discover name (unregister name file).2 = Throw (ServiceNotFound name).
Proof.
  intros Hname. apply discover_not_found_iff; [done|].
  unfold unregister.
  destruct (readRegistry file !! name) as [service|] eqn:E.
  - rewrite (services_get_own _ _ _ E). simpl. apply lookup_delete_eq.
  - by rewrite (services_get_regular _ _ Hname E).
Qed.

Lemma discover_after_updateHealth_false name now file service :
  readRegistry file !! name = Some service →
  discover name (updateHealth name false now file)
  = Throw (ServiceUnavailable name).
Proof.
  intros E. unfold updateHealth. rewrite (services_get_own _ _ _ E).
  unfold discover. simpl.
  erewrite services_get_own; [|apply lookup_insert_eq]. done.
Qed.

(** *** [cleanup] *)

Lemma cleanup_fold_keeps_absent currentPid entries acc name :
  acc.1 !! name = None →
  (foldl (cleanup_entry currentPid) acc entries).1 !! name = None.
Proof.
  revert acc. induction entries as [|entry entries IH]; intros acc E; [done|].
  simpl. apply IH. unfold cleanup_entry. case_bool_decide; [|done].
  simpl. destruct (decide (entry.1 = name)) as [->|Hne].
  - apply lookup_delete_eq.
  - by rewrite lookup_delete_ne.
Qed.

Lemma cleanup_fold_deletes currentPid entries acc name service :
  (name, service) ∈ entries →
  pid service = currentPid →
  (foldl (cleanup_entry currentPid) acc entries).1 !! name = None.
Proof.
  revert acc. induction entries as [|entry entries IH]; intros acc Hin Hpid.
  - by apply elem_of_nil in Hin.
  - apply elem_of_cons in Hin as [<-|Hin]; [|by apply IH].
    simpl. apply cleanup_fold_keeps_absent.
    unfold cleanup_entry. rewrite bool_decide_eq_true_2; [|done].
    apply lookup_delete_eq.
Qed.

Lemma cleanup_fold_keeps_others currentPid entries acc name :
  (∀ service, (name, service) ∈ entries → pid service ≠ currentPid) →
  (foldl (cleanup_entry currentPid) acc entries).1 !! name = acc.1 !! name.
Proof.
  revert acc. induction entries as [|entry entries IH]; intros acc Hall; [done|].
  simpl. rewrite IH.
  - unfold cleanup_entry. case_bool_decide as Hpid; [|done].
    simpl. apply lookup_delete_ne. intros <-.
    apply (Hall entry.2); [|done]. destruct entry. apply list_elem_of_here.
  - intros service Hin. apply Hall. by apply list_elem_of_further.
Qed.

Lemma cleanup_fold_unchanged currentPid entries acc :
  (foldl (cleanup_entry currentPid) acc entries).2 = false →
  (foldl (cleanup_entry currentPid) acc entries).1 = acc.1.
Proof.
  revert acc. induction entries as [|entry entries IH]; intros acc; [done|].
  simpl. unfold cleanup_entry at 2 4. case_bool_decide; [|apply IH].
  intros Hflag. exfalso. revert Hflag.
  generalize (delete entry.1 acc.1). clear.
  induction entries as [|e entries IH]; intros m; [done|].
  simpl. unfold cleanup_entry at 2. case_bool_decide; simpl; apply IH.
Qed.

(** C7.  After [cleanup] run by the process [currentPid], a name reads
    from the store exactly as before unless its record carries that
    process identifier, in which case it is gone: every matching record
    is deleted and every other record is left as it was. *)
Theorem cleanup_removes_exactly_own_records
    (currentPid : Z) (file : RegistryFile) (name : string) :
  readRegistry (cleanup currentPid file) !! name =
    match readRegistry file !! name with
    | Some service =>
        if bool_decide (pid service = currentPid) then None else Some service
    | None => None
    end.
Proof.
  unfold cleanup.
  set (services := readRegistry file).
  pose proof (cleanup_fold_deletes currentPid (map_to_list services)
                (services, false) name) as Hdel.
  pose proof (cleanup_fold_keeps_others currentPid (map_to_list services)
                (services, false) name) as Hkeep.
  pose proof (cleanup_fold_unchanged currentPid (map_to_list services)
                (services, false)) as Hsame.
  destruct (foldl (cleanup_entry currentPid) (services, false)
              (map_to_list services)) as [services' changed].
  simpl in *.
  assert (services' !! name =
            match services !! name with
            | Some service =>
                if bool_decide (pid service = currentPid)
                then None else Some service
            | None => None
            end) as Hlookup.
  { destruct (services !! name) as [service|] eqn:E.
    - case_bool_decide as Hpid.
      + apply (Hdel service); [|done]. by apply elem_of_map_to_list.
      + rewrite Hkeep; [done|]. intros s Hin.
        apply elem_of_map_to_list in Hin. congruence.
    - rewrite Hkeep; [done|]. intros s Hin.
      apply elem_of_map_to_list in Hin. congruence. }
  destruct changed; [done|].
  rewrite (Hsame eq_refl) in Hlookup. exact Hlookup.
Qed.

(** *** Names inherited from [Object.prototype] *)

(** C5.  On a registry without any record, [discover("toString")] does
    not fail with the not-found error: [services["toString"]] is the
    inherited method, which is truthy and has no [healthy] field, so the
    unavailable error is thrown, although the name is absent from the
    store, as [hasService] (which asks [hasOwnProperty]) reports. *)
Theorem discover_inherited_name_unavailable :
  readRegistry (Table ∅) !! "toString" = None
  ∧ hasService "toString" (Table ∅) = Return false
  ∧ discover "toString" (Table ∅) = Throw (ServiceUnavailable "toString")
  ∧ discover "toString" (Table ∅) ≠ Throw (ServiceNotFound "toString").
Proof.
  split; [done|]. split; [done|]. split; [by vm_compute|].
  intros E. vm_compute in E. discriminate E.
Qed.

(** *** A missing or unreadable file *)

Lemma getStats_empty : getStats (Table ∅) = (0, 0, 0)%nat.
Proof.
  unfold getStats. simpl. by rewrite !map_filter_empty, !map_size_empty.
Qed.

(** C8.  When the registry file is missing or cannot be read as a table,
    every operation completes and behaves as on the empty table: reads
    find no service, removals and health updates have nothing to do, a
    registration starts from the empty table, and building the registry
    object at start-up leaves a store that reads as empty. *)
Theorem unreadable_store_is_empty_table (file : RegistryFile) :
  is_table file = false →
  readRegistry file = ∅
  ∧ (∀ name, discover name file = discover name (Table ∅))
  ∧ (∀ name, name ∉ Object_prototype_keys →
             discover name file = Throw (ServiceNotFound name))
  ∧ (∀ now, listServices now file = Return ∅)
  ∧ (∀ name, hasService name file = Return false)
  ∧ getStats file = (0, 0, 0)%nat
  ∧ (∀ name, name ∉ Object_prototype_keys →
             unregister name file = (false, file))
  ∧ (∀ name h now, name ∉ Object_prototype_keys →
                   updateHealth name h now file = file)
  ∧ (∀ currentPid, cleanup currentPid file = file)
  ∧ (∀ name info t1 t2 owner,
       readRegistry (register name info t1 t2 owner file)
       = readRegistry (register name info t1 t2 owner (Table ∅)))
  ∧ readRegistry (constructor file) = ∅.
Proof.
  intros Hfile.
  assert (readRegistry file = ∅) as Hread by (by destruct file).
  split; [done|].
  split. { intros name. unfold discover. by rewrite Hread. }
  split. { intros name Hname. by apply discover_not_found_iff; [|rewrite Hread]. }
  split. { intros now. unfold listServices. rewrite Hread.
           rewrite bool_decide_eq_true_2 by apply map_Forall_empty.
           by rewrite delete_empty, fmap_empty. }
  split. { intros name. unfold hasService. by rewrite Hread. }
  split. { unfold getStats. rewrite Hread. apply getStats_empty. }
  split. { intros name Hname. unfold unregister.
           by rewrite Hread, services_get_regular. }
  split. { intros name h now Hname. unfold updateHealth.
           by rewrite Hread, services_get_regular. }
  split. { intros currentPid. unfold cleanup. rewrite Hread.
           by rewrite map_to_list_empty. }
  split. { intros. unfold register. by rewrite Hread. }
  by destruct file.
Qed.

Lemma unreadable_store_is_empty_table_witness :
  is_table Missing = false
  ∧ readRegistry Missing = ∅
  ∧ discover "item-service" Missing = Throw (ServiceNotFound "item-service")
  ∧ readRegistry (constructor Missing) = ∅.
Proof.
  pose proof (unreadable_store_is_empty_table Missing eq_refl)
    as (Hread & _ & Hfind & _ & _ & _ & _ & _ & _ & _ & Hstart).
  split; [reflexivity|]. split; [exact Hread|].
  split; [|exact Hstart].
  apply Hfind. apply regular_name. reflexivity.
Defined.

End RegistryFacts.

(** ** Properties of the circuit breaker *)

Module BreakerFacts.

Import ServiceRegistry APIGateway.

Section WithWorld.

Context {World : Type} `{Runtime World}.

Lemma executeWithCircuitBreaker_unfold {A} name (operation : Js World A)
    (circuitBreakers : gmap string CircuitBreaker) (w : World) :
  executeWithCircuitBreaker name operation circuitBreakers w =
    let current := (getCircuitBreaker name circuitBreakers).1 in
    let table := (getCircuitBreaker name circuitBreakers).2 in
    match breaker_entry name (Date_now w) current with
    | inl refused => (Throw refused, table, w)
    | inr entered =>
        match operation w with
        | (inr result, w') =>
            (Return result, <[name := breaker_success entered]> table, w')
        | (inl error, w') =>
            (Throw error,
             <[name := breaker_failure (Date_now w') entered]> table, w')
        end
    end.
Proof.
  unfold executeWithCircuitBreaker.
  by destruct (getCircuitBreaker name circuitBreakers).
Qed.

Lemma getCircuitBreaker_present name cbs cb :
  cbs !! name = Some cb → getCircuitBreaker name cbs = (cb, cbs).
Proof. intros E. unfold getCircuitBreaker. by rewrite E. Qed.

Lemma getCircuitBreaker_lookup name cbs :
  (getCircuitBreaker name cbs).2 !! name
  = Some (getCircuitBreaker name cbs).1.
Proof.
  unfold getCircuitBreaker. destruct (cbs !! name) eqn:E; simpl; [done|].
  apply lookup_insert_eq.
Qed.

Lemma getCircuitBreaker_other name other cbs :
  other ≠ name →
  (getCircuitBreaker name cbs).2 !! other = cbs !! other.
Proof.
  intros Hne. unfold getCircuitBreaker.
  destruct (cbs !! name); simpl; [done|]. by apply lookup_insert_ne.
Qed.

(** The breaker is the only entry a call touches. *)
Lemma executeWithCircuitBreaker_frame {A} name other
    (operation : Js World A) cbs w :
  other ≠ name →
  (executeWithCircuitBreaker name operation cbs w).1.2 !! other
  = cbs !! other.
Proof.
  intros Hne. rewrite executeWithCircuitBreaker_unfold. simpl.
  destruct (breaker_entry _ _ _); simpl.
  - by apply getCircuitBreaker_other.
  - destruct (operation w) as [[e|r] w']; simpl;
      rewrite lookup_insert_ne by done; by apply getCircuitBreaker_other.
Qed.

Lemma breaker_entry_ok name now cb entered :
  breaker_ok cb → breaker_entry name now cb = Return entered →
  breaker_ok entered.
Proof.
  unfold breaker_entry, breaker_ok.
  destruct (state cb) eqn:E; intros Hok Hentry.
  - apply (inj inr) in Hentry. subst. by rewrite E.
  - destruct (30000 <? now - lastFailTime cb); [|discriminate Hentry].
    apply (inj inr) in Hentry. subst. simpl. intros _. by apply Hok.
  - apply (inj inr) in Hentry. subst. intros _. by apply Hok.
Qed.

Lemma breaker_success_ok cb : breaker_ok cb → breaker_ok (breaker_success cb).
Proof.
  unfold breaker_success, breaker_ok.
  destruct (state cb) eqn:E; simpl; rewrite ?E; done.
Qed.

Lemma breaker_failure_ok now cb : breaker_ok cb → breaker_ok (breaker_failure now cb).
Proof.
  unfold breaker_failure, breaker_ok. cbn [state failureCount].
  destruct (3 <=? S (failureCount cb))%nat eqn:E.
  - intros _ _. by apply Nat.leb_le in E.
  - intros Hok Hstate. specialize (Hok Hstate). lia.
Qed.

(** Every breaker the gateway ever holds satisfies [breaker_ok]: new
    breakers do, and a call keeps it. *)
Lemma executeWithCircuitBreaker_ok {A} name (operation : Js World A) cbs w :
  map_Forall (λ _, breaker_ok) cbs →
  map_Forall (λ _, breaker_ok)
    (executeWithCircuitBreaker name operation cbs w).1.2.
Proof.
  intros Hall.
  assert (map_Forall (λ _, breaker_ok) (getCircuitBreaker name cbs).2)
    as Htable.
  { unfold getCircuitBreaker. destruct (cbs !! name); simpl; [done|].
    apply map_Forall_insert_2; [|done]. intros Hne. by destruct Hne. }
  assert (breaker_ok (getCircuitBreaker name cbs).1) as Hcurrent.
  { apply (Htable name). apply getCircuitBreaker_lookup. }
  rewrite executeWithCircuitBreaker_unfold. simpl.
  destruct (breaker_entry _ _ _) as [refused|entered] eqn:Hentry; simpl;
    [done|].
  pose proof (breaker_entry_ok _ _ _ _ Hcurrent Hentry) as Hok.
  destruct (operation w) as [[e|r] w']; simpl;
    apply map_Forall_insert_2; auto using breaker_success_ok, breaker_failure_ok.
Qed.

(** C2 (amended).  While the breaker is closed, a call that succeeds
    leaves it exactly as it was, failure count included: the count is not
    reset.  A call that fails adds one to the count, stamps the time of
    the failure and opens the breaker as soon as the count reaches three,
    whether or not successes came in between. *)
Theorem closed_breaker_counts_cumulative_failures {A} (name : string)
    (operation : Js World A) (cbs : gmap string CircuitBreaker) (w : World)
    (cb : CircuitBreaker) :
  (getCircuitBreaker name cbs).1 = cb →
  state cb = closed →
  match operation w with
  | (inr result, w') =>
      ∃ cbs', executeWithCircuitBreaker name operation cbs w
              = (Return result, cbs', w')
              ∧ cbs' !! name = Some cb
  | (inl error, w') =>
      ∃ cbs', executeWithCircuitBreaker name operation cbs w
              = (Throw error, cbs', w')
              ∧ cbs' !! name =
                  Some {| state := if (3 <=? S (failureCount cb))%nat
                                   then open else closed;
                          failureCount := S (failureCount cb);
                          lastFailTime := Date_now w' |}
  end.
Proof.
  intros Hcb Hclosed. rewrite executeWithCircuitBreaker_unfold. simpl.
  rewrite Hcb. unfold breaker_entry. rewrite Hclosed.
  destruct (operation w) as [[error|result] w']; eexists; (split; [done|]);
    rewrite lookup_insert_eq.
  - unfold breaker_failure. by rewrite Hclosed.
  - unfold breaker_success. by rewrite Hclosed.
Qed.

(** C3 (amended).  On an open breaker whose last failure is more than
    30 000 ms old, the call first moves the breaker to half-open and then
    runs the operation.  If the operation returns, the breaker is closed
    with a failure count of zero; if it throws, the breaker is open again
    and the time of this failure becomes the start of a new cooldown. *)
Theorem open_breaker_half_open_trial {A} (name : string)
    (operation : Js World A) (cbs : gmap string CircuitBreaker) (w : World)
    (cb : CircuitBreaker) :
  cbs !! name = Some cb →
  state cb = open →
  breaker_ok cb →
  30000 < Date_now w - lastFailTime cb →
  breaker_entry name (Date_now w) cb
  = Return {| state := half_open; failureCount := failureCount cb;
              lastFailTime := lastFailTime cb |}
  ∧ match operation w with
    | (inr result, w') =>
        executeWithCircuitBreaker name operation cbs w
        = (Return result,
           <[name := {| state := closed; failureCount := 0;
                        lastFailTime := lastFailTime cb |}]> cbs,
           w')
    | (inl error, w') =>
        executeWithCircuitBreaker name operation cbs w
        = (Throw error,
           <[name := {| state := open;
                        failureCount := S (failureCount cb);
                        lastFailTime := Date_now w' |}]> cbs,
           w')
    end.
Proof.
  intros Hcb Hopen Hok Hcool.
  assert (breaker_entry name (Date_now w) cb
          = Return {| state := half_open; failureCount := failureCount cb;
                      lastFailTime := lastFailTime cb |}) as Hentry.
  { unfold breaker_entry. rewrite Hopen.
    by rewrite (proj2 (Z.ltb_lt _ _) Hcool). }
  split; [exact Hentry|].
  rewrite executeWithCircuitBreaker_unfold.
  rewrite (getCircuitBreaker_present _ _ _ Hcb). cbn [fst snd].
  rewrite Hentry. cbv [Return Throw]. cbv beta iota.
  destruct (operation w) as [[error|result] w']; [|reflexivity].
  unfold breaker_failure. cbn [state failureCount].
  assert (3 ≤ failureCount cb)%nat as Hcount
    by (apply Hok; rewrite Hopen; discriminate).
  destruct (3 <=? S (failureCount cb))%nat eqn:E; [reflexivity|].
  apply Nat.leb_gt in E. lia.
Qed.

(** C4.  An open breaker whose last failure is less than 30 000 ms old
    refuses the call with the circuit-open error, whatever the operation:
    the breakers and the world are returned as they were, so the
    operation has not run.  In particular, when three calls in a row
    through a fresh breaker have run their operation and failed, a fourth
    call made within the cooldown is refused without running its
    operation. *)
Theorem open_breaker_refuses_calls {A} (name : string) :
  (∀ (operation : Js World A) (cbs : gmap string CircuitBreaker)
     (w : World) (cb : CircuitBreaker),
     cbs !! name = Some cb →
     state cb = open →
     Date_now w - lastFailTime cb < 30000 →
     executeWithCircuitBreaker name operation cbs w
     = (Throw (CircuitOpen name), cbs, w))
  ∧ (∀ (op1 op2 op3 : Js World A) (cbs0 : gmap string CircuitBreaker)
       (w1 w2 w3 w4 w1' w2' w3' : World) (e1 e2 e3 : Error),
       state (getCircuitBreaker name cbs0).1 = closed →
       failureCount (getCircuitBreaker name cbs0).1 = 0%nat →
       op1 w1 = (Throw e1, w1') →
       op2 w2 = (Throw e2, w2') →
       op3 w3 = (Throw e3, w3') →
       Date_now w4 - Date_now w3' < 30000 →
       ∃ cbs1 cbs2 cbs3,
         executeWithCircuitBreaker name op1 cbs0 w1 = (Throw e1, cbs1, w1')
         ∧ executeWithCircuitBreaker name op2 cbs1 w2 = (Throw e2, cbs2, w2')
         ∧ executeWithCircuitBreaker name op3 cbs2 w3 = (Throw e3, cbs3, w3')
         ∧ ∀ op4 : Js World A,
             executeWithCircuitBreaker name op4 cbs3 w4
             = (Throw (CircuitOpen name), cbs3, w4)).
Proof.
  assert (∀ (operation : Js World A) cbs w cb,
            cbs !! name = Some cb → state cb = open →
            Date_now w - lastFailTime cb < 30000 →
            executeWithCircuitBreaker name operation cbs w
            = (Throw (CircuitOpen name), cbs, w)) as Hrefuse.
  { intros operation cbs w cb Hcb Hopen Hcool.
    rewrite executeWithCircuitBreaker_unfold.
    rewrite (getCircuitBreaker_present _ _ _ Hcb). simpl.
    unfold breaker_entry. rewrite Hopen.
    by rewrite (proj2 (Z.ltb_ge _ _)) by lia. }
  split; [exact Hrefuse|].
  intros op1 op2 op3 cbs0 w1 w2 w3 w4 w1' w2' w3' e1 e2 e3
    Hclosed Hzero H1 H2 H3 Hcool.
  destruct (getCircuitBreaker name cbs0) as [cb0 table] eqn:Hget.
  simpl in Hclosed, Hzero.
  set (cb1 := breaker_failure (Date_now w1') cb0).
  set (cb2 := breaker_failure (Date_now w2') cb1).
  set (cb3 := breaker_failure (Date_now w3') cb2).
  exists (<[name := cb1]> table), (<[name := cb2]> (<[name := cb1]> table)),
    (<[name := cb3]> (<[name := cb2]> (<[name := cb1]> table))).
  assert (state cb1 = closed ∧ failureCount cb1 = 1%nat) as [Hs1 Hc1].
  { unfold cb1, breaker_failure. cbn [state failureCount].
    by rewrite Hzero, Hclosed. }
  assert (state cb2 = closed ∧ failureCount cb2 = 2%nat) as [Hs2 Hc2].
  { unfold cb2, breaker_failure. cbn [state failureCount].
    by rewrite Hc1, Hs1. }
  assert (state cb3 = open ∧ lastFailTime cb3 = Date_now w3') as [Hs3 Ht3].
  { unfold cb3, breaker_failure. cbn [state failureCount lastFailTime].
    by rewrite Hc2. }
  repeat split.
  - rewrite executeWithCircuitBreaker_unfold, Hget. simpl.
    unfold breaker_entry. by rewrite Hclosed, H1.
  - rewrite executeWithCircuitBreaker_unfold.
    rewrite (getCircuitBreaker_present _ _ cb1) by apply lookup_insert_eq.
    simpl. unfold breaker_entry. by rewrite Hs1, H2.
  - rewrite executeWithCircuitBreaker_unfold.
    rewrite (getCircuitBreaker_present _ _ cb2) by apply lookup_insert_eq.
    simpl. unfold breaker_entry. by rewrite Hs2, H3.
  - intros op4. apply (Hrefuse op4 _ _ cb3); [apply lookup_insert_eq|done|].
    by rewrite Ht3.
Qed.

End WithWorld.

(** *** Concrete runs *)

(** C2, as stated, fails: a closed breaker that has counted two failures
    still counts two after a successful call, and on the run failure,
    failure, success, failure the breaker opens although the three
    failures were not consecutive. *)
Lemma closed_success_does_not_reset_count :
  ¬ (∀ (name : string) (cbs : gmap string CircuitBreaker)
       (cb : CircuitBreaker) (operation : Js Scripted HttpResponse)
       (w w' : Scripted) (result : HttpResponse),
       cbs !! name = Some cb →
       state cb = closed →
       operation w = (Return result, w') →
       ∃ cb', (executeWithCircuitBreaker name operation cbs w).1.2 !! name
              = Some cb'
              ∧ failureCount cb' = 0%nat)
  ∧ (callsThrough "svc-b" [itemsCall; itemsCall; itemsCall; itemsCall] ∅
       (scriptedWorld 0 Missing
          [(5, Throw serverError); (5, Throw serverError);
           (5, Return okResponse); (5, Throw serverError)])).1
    = ([Throw serverError; Throw serverError; Return okResponse;
        Throw serverError],
       breakerOf open 3 20).
Proof.
  split; [|by vm_compute].
  intros Hclaim.
  destruct (Hclaim "svc-b" (breakerOf closed 2 1000)
              {| state := closed; failureCount := 2; lastFailTime := 1000 |}
              itemsCall
              (scriptedWorld 2000 Missing [(5, Return okResponse)])
              _ okResponse eq_refl eq_refl eq_refl)
    as (cb' & Hlookup & Hcount).
  vm_compute in Hlookup. apply (inj Some) in Hlookup. subst cb'.
  discriminate Hcount.
Qed.

Lemma closed_breaker_counts_cumulative_failures_witness :
  ∃ cbs',
    executeWithCircuitBreaker "svc-b" itemsCall (breakerOf closed 2 1000)
      (scriptedWorld 2000 Missing [(5, Return okResponse)])
    = (Return okResponse, cbs',
       (itemsCall (scriptedWorld 2000 Missing [(5, Return okResponse)])).2)
    ∧ cbs' !! "svc-b"
      = Some {| state := closed; failureCount := 2; lastFailTime := 1000 |}.
Proof.
  exact (closed_breaker_counts_cumulative_failures "svc-b" itemsCall
           (breakerOf closed 2 1000)
           (scriptedWorld 2000 Missing [(5, Return okResponse)])
           {| state := closed; failureCount := 2; lastFailTime := 1000 |}
           eq_refl eq_refl).
Defined.

(** C3, as stated, fails on the boundary: exactly 30 000 ms after the last
    failure the call is still refused and the operation does not run. *)
Lemma cooldown_boundary_still_refused :
  ¬ (∀ (name : string) (cbs : gmap string CircuitBreaker)
       (cb : CircuitBreaker) (operation : Js Scripted HttpResponse)
       (w : Scripted),
       cbs !! name = Some cb →
       state cb = open →
       breaker_ok cb →
       30000 ≤ Date_now w - lastFailTime cb →
       (executeWithCircuitBreaker name operation cbs w).1.1
       = (operation w).1)
  ∧ executeWithCircuitBreaker "svc-b" itemsCall (breakerOf open 3 1000)
      (scriptedWorld 31000 Missing [(5, Return okResponse)])
    = (Throw (CircuitOpen "svc-b"), breakerOf open 3 1000,
       scriptedWorld 31000 Missing [(5, Return okResponse)]).
Proof.
  split; [|by vm_compute].
  intros Hclaim.
  assert (breaker_ok
            {| state := open; failureCount := 3; lastFailTime := 1000 |})
    as Hok by (intros _; simpl; lia).
  specialize (Hclaim "svc-b" (breakerOf open 3 1000) _ itemsCall
                (scriptedWorld 31000 Missing [(5, Return okResponse)])
                eq_refl eq_refl Hok).
  simpl in Hclaim. specialize (Hclaim ltac:(lia)).
  vm_compute in Hclaim. discriminate Hclaim.
Qed.

Lemma open_breaker_half_open_trial_witness :
  breaker_entry "svc-b" 31001
    {| state := open; failureCount := 3; lastFailTime := 1000 |}
  = Return {| state := half_open; failureCount := 3; lastFailTime := 1000 |}
  ∧ executeWithCircuitBreaker "svc-b" itemsCall (breakerOf open 3 1000)
      (scriptedWorld 31001 Missing [(5, Return okResponse)])
    = (Return okResponse,
       <["svc-b" := {| state := closed; failureCount := 0;
                       lastFailTime := 1000 |}]> (breakerOf open 3 1000),
       (itemsCall (scriptedWorld 31001 Missing [(5, Return okResponse)])).2).
Proof.
  refine (open_breaker_half_open_trial "svc-b" itemsCall
            (breakerOf open 3 1000)
            (scriptedWorld 31001 Missing [(5, Return okResponse)])
            {| state := open; failureCount := 3; lastFailTime := 1000 |}
            eq_refl eq_refl _ _).
  - intros _. simpl. lia.
  - simpl. lia.
Defined.

Lemma open_breaker_refuses_calls_witness :
  let script := [(5, Throw serverError); (5, Throw serverError);
                 (5, Throw serverError); (5, Return okResponse)] in
  let w1 := scriptedWorld 0 Missing script in
  let w2 := advance 100 (itemsCall w1).2 in
  let w3 := advance 100 (itemsCall w2).2 in
  let w4 := advance 29999 (itemsCall w3).2 in
  executeWithCircuitBreaker "svc-b" itemsCall (breakerOf open 3 1000)
    (scriptedWorld 2000 Missing [(5, Return okResponse)])
  = (Throw (CircuitOpen "svc-b"), breakerOf open 3 1000,
     scriptedWorld 2000 Missing [(5, Return okResponse)])
  ∧ ∃ cbs1 cbs2 cbs3,
      executeWithCircuitBreaker "svc-b" itemsCall ∅ w1
      = (Throw serverError, cbs1, (itemsCall w1).2)
      ∧ executeWithCircuitBreaker "svc-b" itemsCall cbs1 w2
        = (Throw serverError, cbs2, (itemsCall w2).2)
      ∧ executeWithCircuitBreaker "svc-b" itemsCall cbs2 w3
        = (Throw serverError, cbs3, (itemsCall w3).2)
      ∧ (∀ op4 : Js Scripted HttpResponse,
           executeWithCircuitBreaker "svc-b" op4 cbs3 w4
           = (Throw (CircuitOpen "svc-b"), cbs3, w4))
      ∧ length (sent w4) = 3%nat.
Proof.
  intros script w1 w2 w3 w4.
  destruct (open_breaker_refuses_calls (A := HttpResponse) "svc-b")
    as [Hrefuse Hthree].
  split.
  - apply (Hrefuse itemsCall (breakerOf open 3 1000) _
             {| state := open; failureCount := 3; lastFailTime := 1000 |});
      [reflexivity | reflexivity | simpl; lia].
  - destruct (Hthree itemsCall itemsCall itemsCall ∅ w1 w2 w3 w4
                (itemsCall w1).2 (itemsCall w2).2 (itemsCall w3).2
                serverError serverError serverError)
      as (cbs1 & cbs2 & cbs3 & H1 & H2 & H3 & H4);
      [reflexivity | reflexivity | reflexivity | reflexivity | reflexivity
      | simpl; lia |].
    exists cbs1, cbs2, cbs3. repeat split; try assumption.
Defined.

End BreakerFacts.

(** ** Properties of the reverse proxy *)

Module ProxyFacts.

Import ServiceRegistry APIGateway.

(** *** How the [catch] clause classifies an error *)

Lemma proxyError_circuit_open serviceName :
  proxyError serviceName (CircuitOpen serviceName)
  = json 503 (JObj {[ "success" := JBool false;
                      "message" := JStr "Serviço temporariamente indisponível";
                      "service" := JStr serviceName;
                      "error" := JStr "Circuit breaker aberto" ]}).
Proof. reflexivity. Qed.

Lemma proxyError_not_found serviceName :
  includes serviceName "Circuit breaker aberto" = false →
  proxyError serviceName (ServiceNotFound serviceName)
  = json 503 (JObj {[ "success" := JBool false;
                      "message" := JStr "Serviço indisponível";
                      "service" := JStr serviceName ]}).
Proof.
  intros Hname. unfold proxyError, ServiceNotFound, new_Error.
  cbn [message code response]. simpl.
  change (EmptyString +:+ serviceName) with serviceName.
  by rewrite Hname.
Qed.

(** The error [discover] throws for an unhealthy record matches neither
    of the two [503] tests, and carries no [code] and no [response]. *)
Lemma proxyError_unavailable serviceName :
  includes serviceName "Circuit breaker aberto" = false →
  includes serviceName "não encontrado" = false →
  proxyError serviceName (ServiceUnavailable serviceName)
  = json 500 (JObj {[ "success" := JBool false;
                      "message" := JStr "Erro interno do gateway";
                      "service" := JStr serviceName ]}).
Proof.
  intros Hopen Hfound. unfold proxyError, ServiceUnavailable, new_Error.
  cbn [message code response]. simpl.
  change (EmptyString +:+ serviceName) with serviceName.
  by rewrite Hopen, Hfound.
Qed.

Lemma proxyError_refused serviceName error :
  code error = Some "ECONNREFUSED" →
  statusCode (proxyError serviceName error) = 503.
Proof.
  intros Hcode. unfold proxyError.
  destruct (includes (message error) "Circuit breaker aberto"); [done|].
  by rewrite Hcode, bool_decide_eq_true_2.
Qed.

Lemma proxyError_downstream serviceName error downstream :
  includes (message error) "Circuit breaker aberto" = false →
  includes (message error) "não encontrado" = false →
  code error ≠ Some "ECONNREFUSED" →
  response error = Some downstream →
  proxyError serviceName error = json (status downstream) (data downstream).
Proof.
  intros Hopen Hfound Hcode Hresponse. unfold proxyError.
  by rewrite Hopen, Hfound, bool_decide_eq_false_2, Hresponse.
Qed.

Lemma proxyError_other serviceName error :
  includes (message error) "Circuit breaker aberto" = false →
  includes (message error) "não encontrado" = false →
  code error ≠ Some "ECONNREFUSED" →
  response error = None →
  proxyError serviceName error
  = json 500 (JObj {[ "success" := JBool false;
                      "message" := JStr "Erro interno do gateway";
                      "service" := JStr serviceName ]}).
Proof.
  intros Hopen Hfound Hcode Hresponse. unfold proxyError.
  by rewrite Hopen, Hfound, bool_decide_eq_false_2, Hresponse.
Qed.

Lemma routed_names_are_plain serviceName :
  serviceName ∈ routedServices →
  includes serviceName "Circuit breaker aberto" = false
  ∧ includes serviceName "não encontrado" = false
  ∧ serviceName ∉ Object_prototype_keys.
Proof.
  unfold routedServices. rewrite !elem_of_cons, elem_of_nil.
  intros [->|[->|[->|[]]]]; (split; [reflexivity|split; [reflexivity|]]);
    apply RegistryFacts.regular_name; reflexivity.
Qed.

Section WithWorld.

Context {World : Type} `{Runtime World}.

(** A failed discovery is answered from the [catch] clause; no breaker is
    touched and nothing is sent. *)
Lemma proxyToService_discovery_failed serviceName req cbs (w : World) error :
  discover serviceName (registryFile w) = Throw error →
  proxyToService serviceName req cbs w
  = (proxyError serviceName error, cbs, w).
Proof. intros E. unfold proxyToService. by rewrite E. Qed.

(** After a successful discovery the answer is decided by the call made
    through the breaker. *)
Lemma proxyToService_discovered serviceName req cbs (w : World) service :
  discover serviceName (registryFile w) = Return service →
  proxyToService serviceName req cbs w
  = let '(outcome, cbs', w') :=
      executeWithCircuitBreaker serviceName
        (axios (forwarded req
                  (url service +:+ rewritePath (originalUrl req))))
        cbs w in
    match outcome with
    | inr result =>
        ({| statusCode := status result;
            res_headers := {[ "X-Proxied-By" := "api-gateway";
                              "X-Service-Source" := serviceName ]};
            body := data result |}, cbs', w')
    | inl error => (proxyError serviceName error, cbs', w')
    end.
Proof. intros E. unfold proxyToService. by rewrite E. Qed.

(** A name missing from the registry: [503] naming the service. *)
Lemma proxyToService_not_found serviceName req cbs (w : World) :
  serviceName ∈ routedServices →
  readRegistry (registryFile w) !! serviceName = None →
  proxyToService serviceName req cbs w
  = (json 503 (JObj {[ "success" := JBool false;
                       "message" := JStr "Serviço indisponível";
                       "service" := JStr serviceName ]}), cbs, w).
Proof.
  intros Hrouted Hmissing.
  destruct (routed_names_are_plain _ Hrouted) as (Hopen & _ & Hplain).
  rewrite (proxyToService_discovery_failed _ _ _ _ (ServiceNotFound serviceName)).
  - by rewrite proxyError_not_found.
  - by apply RegistryFacts.discover_not_found_iff.
Qed.

(** A record marked unhealthy: the answer is [500], not [503]. *)
Lemma proxyToService_unhealthy serviceName req cbs (w : World) service :
  serviceName ∈ routedServices →
  readRegistry (registryFile w) !! serviceName = Some service →
  healthy service = false →
  proxyToService serviceName req cbs w
  = (json 500 (JObj {[ "success" := JBool false;
                       "message" := JStr "Erro interno do gateway";
                       "service" := JStr serviceName ]}), cbs, w).
Proof.
  intros Hrouted Hstored Hdown.
  destruct (routed_names_are_plain _ Hrouted) as (Hopen & Hfound & Hplain).
  rewrite (proxyToService_discovery_failed _ _ _ _
             (ServiceUnavailable serviceName)).
  - by rewrite proxyError_unavailable.
  - apply RegistryFacts.discover_unavailable_iff; [done|]. by exists service.
Qed.

(** An open breaker inside its cooldown: [503] with the circuit-open
    field, and nothing is sent. *)
Lemma proxyToService_circuit_open serviceName req cbs (w : World) service cb :
  discover serviceName (registryFile w) = Return service →
  cbs !! serviceName = Some cb →
  state cb = open →
  Date_now w - lastFailTime cb ≤ 30000 →
  proxyToService serviceName req cbs w
  = (json 503 (JObj {[ "success" := JBool false;
                       "message" := JStr "Serviço temporariamente indisponível";
                       "service" := JStr serviceName;
                       "error" := JStr "Circuit breaker aberto" ]}), cbs, w).
Proof.
  intros Hfound Hcb Hopen Hcool.
  rewrite (proxyToService_discovered _ _ _ _ _ Hfound).
  rewrite BreakerFacts.executeWithCircuitBreaker_unfold.
  rewrite (BreakerFacts.getCircuitBreaker_present _ _ _ Hcb). cbn [fst snd].
  unfold breaker_entry. rewrite Hopen.
  rewrite (proj2 (Z.ltb_ge _ _)) by lia. reflexivity.
Qed.

(** What the call through a closed breaker decides. *)
Lemma proxyToService_closed serviceName req cbs (w : World) service cb :
  discover serviceName (registryFile w) = Return service →
  (getCircuitBreaker serviceName cbs).1 = cb →
  state cb = closed →
  match axios (forwarded req (url service +:+ rewritePath (originalUrl req)))
              w with
  | (inr result, w') =>
      ∃ cbs', proxyToService serviceName req cbs w
              = ({| statusCode := status result;
                    res_headers := {[ "X-Proxied-By" := "api-gateway";
                                      "X-Service-Source" := serviceName ]};
                    body := data result |}, cbs', w')
  | (inl error, w') =>
      ∃ cbs', proxyToService serviceName req cbs w
              = (proxyError serviceName error, cbs', w')
  end.
Proof.
  intros Hfound Hcb Hclosed.
  rewrite (proxyToService_discovered _ _ _ _ _ Hfound).
  rewrite BreakerFacts.executeWithCircuitBreaker_unfold. cbn zeta.
  rewrite Hcb. unfold breaker_entry. rewrite Hclosed.
  cbv [Return Throw]. cbv beta iota.
  destruct (axios _ w) as [[error|result] w']; by eexists.
Qed.

End WithWorld.

(** C1.  With [item-service] registered but marked unhealthy, discovery
    fails with the unavailable error and the proxy answers
    [GET /api/items] with status [500] (the generic gateway error), not
    with the [503] the specification asks for; nothing is sent and no
    breaker is created. *)
Theorem proxy_unhealthy_service_answers_500 :
  let store :=
    Table {[ "item-service" := sampleRecord "3002" false 4242 ]} in
  let w := scriptedWorld 5000 store [(5, Return okResponse)] in
  discover "item-service" (registryFile w)
  = Throw (ServiceUnavailable "item-service")
  ∧ proxyToService "item-service" (sampleRequest "/api/items") ∅ w
    = (json 500 (JObj {[ "success" := JBool false;
                         "message" := JStr "Erro interno do gateway";
                         "service" := JStr "item-service" ]}), ∅, w).
Proof. split; by vm_compute. Qed.

(** The other outcomes on the same request: a missing registration, a
    refused connection and a downstream error status. *)
Example proxy_runs :
  let request := sampleRequest "/api/items/42?full=1" in
  let store :=
    Table {[ "item-service" := sampleRecord "3002" true 4242 ]} in
  statusCode (proxyToService "item-service" request ∅
                (scriptedWorld 5000 Missing [])).1.1 = 503
  ∧ statusCode (proxyToService "item-service" request ∅
                  (scriptedWorld 5000 store [])).1.1 = 503
  ∧ (proxyToService "item-service" request ∅
       (scriptedWorld 5000 store [(5, Throw serverError)])).1.1
    = json 500 (JObj {[ "success" := JBool false ]})
  ∧ cfg_url <$> sent (proxyToService "item-service" request ∅
                        (scriptedWorld 5000 store [(5, Return okResponse)])).2
    = ["http://localhost:3002/items/42?full=1"].
Proof. repeat split; by vm_compute. Qed.

End ProxyFacts.

(** ** Properties of the aggregation endpoints *)

Module AggregatorFacts.

Import ServiceRegistry APIGateway.

Ltac js_unfold :=
  cbv [mbind Js_bind mret Js_ret try_catch await eval registry_discover
       axios_get set_service set_summary throw healthProbe Return Throw] in *;
  cbn [fst snd] in *.

Section WithWorld.

Context {World : Type} `{Runtime World}.

Lemma userSection_probe_failed (d : Dashboard) (w wp : World) e :
  healthProbe "user-service" w = (Throw e, wp) →
  userSection (d, w)
  = (Return (),
     ({| user := user d;
         services := <["userService" := unhealthyReport e]> (services d);
         summary := summary d |}, wp)).
Proof.
  unfold userSection. js_unfold. intros Hprobe.
  destruct (discover "user-service" (registryFile w)) as [e'|service].
  - by simplify_eq.
  - destruct (axios _ w) as [[e'|r] w']; by simplify_eq.
Qed.

(** Case analysis on every outcome a block depends on. *)
Ltac section_facts :=
  repeat split; intros; js_unfold;
  repeat (case_match; simplify_eq);
  cbn [user services summary fst snd] in *;
  repeat (rewrite lookup_insert_eq || rewrite lookup_insert_ne by done);
  try done; try congruence.

(** The effect of the user block on the dashboard under construction. *)
Lemma userSection_spec (d : Dashboard) (w : World) :
  ∃ d' w',
    userSection (d, w) = (Return (), (d', w'))
    ∧ (∀ k, k ≠ "userService" → services d' !! k = services d !! k)
    ∧ (∀ k, k ≠ "totalUsers" → summary d' !! k = summary d !! k)
    ∧ (∀ e wp, healthProbe "user-service" w = (Throw e, wp) →
               services d' !! "userService" = Some (unhealthyReport e)
               ∧ summary d' = summary d)
    ∧ (∀ r wp n, healthProbe "user-service" w = (Return r, wp) →
                 countOf r "userCount" = Return n →
                 services d' !! "userService"
                 = Some (healthyReport {[ "userCount" := n ]})
                 ∧ summary d' !! "totalUsers" = Some n).
Proof.
  destruct (userSection (d, w)) as [res [d' w']] eqn:Hrun. exists d', w'.
  unfold userSection in Hrun. section_facts.
Qed.

(** The effect of the item block. *)
Lemma itemSection_spec (d : Dashboard) (w : World) :
  ∃ d' w',
    itemSection (d, w) = (Return (), (d', w'))
    ∧ (∀ k, k ≠ "itemService" → services d' !! k = services d !! k)
    ∧ (∀ k, k ≠ "totalItems" → k ≠ "activeItems" → k ≠ "categories" →
            summary d' !! k = summary d !! k)
    ∧ (∀ e wp, healthProbe "item-service" w = (Throw e, wp) →
               services d' !! "itemService" = Some (unhealthyReport e)
               ∧ summary d' = summary d)
    ∧ (∀ r wp n1 n2,
         healthProbe "item-service" w = (Return r, wp) →
         countOf r "itemCount" = Return n1 →
         countOf r "activeItems" = Return n2 →
         summary d' !! "totalItems" = Some n1
         ∧ summary d' !! "activeItems" = Some n2
         ∧ (∀ service c wq total,
              discover "item-service" (registryFile w) = Return service →
              axios_get (url service +:+ "/categories") 5000 wp
              = (Return c, wq) →
              lengthOf c = Return total →
              services d' !! "itemService"
              = Some (healthyReport {[ "itemCount" := n1;
                                       "activeItems" := n2 ]})
              ∧ summary d' !! "categories" = Some total)
         ∧ (∀ service e wq,
              discover "item-service" (registryFile w) = Return service →
              axios_get (url service +:+ "/categories") 5000 wp
              = (Throw e, wq) →
              services d' !! "itemService" = Some (unhealthyReport e)
              ∧ summary d' !! "categories" = summary d !! "categories")).
Proof.
  destruct (itemSection (d, w)) as [res [d' w']] eqn:Hrun. exists d', w'.
  unfold itemSection in Hrun. section_facts.
Qed.

(** The effect of the list block. *)
Lemma listSection_spec (u : JsVal) (d : Dashboard) (w : World) :
  ∃ d' w',
    listSection u (d, w) = (Return (), (d', w'))
    ∧ (∀ k, k ≠ "listService" → services d' !! k = services d !! k)
    ∧ (∀ k, k ≠ "totalLists" → k ≠ "activeLists" → k ≠ "userLists" →
            summary d' !! k = summary d !! k)
    ∧ (∀ e wp, healthProbe "list-service" w = (Throw e, wp) →
               services d' !! "listService" = Some (unhealthyReport e)
               ∧ summary d' = summary d)
    ∧ (∀ r wp n1 n2,
         healthProbe "list-service" w = (Return r, wp) →
         countOf r "listCount" = Return n1 →
         countOf r "activeLists" = Return n2 →
         services d' !! "listService"
         = Some (healthyReport {[ "listCount" := n1; "activeLists" := n2 ]})
         ∧ summary d' !! "totalLists" = Some n1
         ∧ summary d' !! "activeLists" = Some n2
         ∧ (truthy u = false →
            summary d' !! "userLists" = summary d !! "userLists")).
Proof.
  destruct (listSection u (d, w)) as [res [d' w']] eqn:Hrun. exists d', w'.
  unfold listSection in Hrun. section_facts.
Qed.


(** Once the field [user] has been built, the three blocks run one after
    the other, each on the dashboard and the world the previous one
    left. *)
Lemma aggregateDashboardData_steps (u field : JsVal) (w : World) :
  dashboardUser u = Return field →
  let s1 := (userSection (initialDashboard field, w)).2 in
  let s2 := (itemSection s1).2 in
  let s3 := (listSection u s2).2 in
  aggregateDashboardData u w = (Return s3.1, s3.2).
Proof.
  intros Hfield s1 s2 s3. subst s3 s2 s1. unfold aggregateDashboardData.
  unfold Return in Hfield. rewrite Hfield.
  destruct (userSection_spec (initialDashboard field) w) as (d1 & w1 & E1 & _).
  destruct (itemSection_spec d1 w1) as (d2 & w2 & E2 & _).
  destruct (listSection_spec u d2 w2) as (d3 & w3 & E3 & _).
  cbv [mbind Js_bind]. rewrite E1. cbn [snd]. rewrite E2. cbn [snd].
  by rewrite E3.
Qed.

(** When the field [user] cannot be built the aggregation throws at once. *)
Lemma aggregateDashboardData_throws (u : JsVal) (error : Error) (w : World) :
  dashboardUser u = Throw error →
  aggregateDashboardData u w = (Throw error, w).
Proof.
  intros Hfield. unfold aggregateDashboardData.
  unfold Throw in Hfield. by rewrite Hfield.
Qed.

(** The answer of the route once the bearer check has let the request
    through. *)
Lemma dashboardRoute_next (req : IncomingRequest) (u : JsVal) (w0 w : World) :
  authMiddleware req w0 = (Return (Next u), w) →
  dashboardRoute req w0
  = match aggregateDashboardData u w with
    | (inr dashboard, w') =>
        (Return (json 200 (JObj {[ "success" := JBool true;
                                   "data" := Dashboard_json dashboard ]})),
         w')
    | (inl _, w') =>
        (Return (json 500 (JObj {[ "success" := JBool false;
                                   "message" :=
                                     JStr "Erro ao carregar dashboard" ]})),
         w')
    end.
Proof.
  intros Hauth. unfold dashboardRoute.
  cbv [mbind Js_bind mret Js_ret try_catch]. rewrite Hauth.
  cbv [Return Throw]. cbv beta iota.
  by destruct (aggregateDashboardData u w) as [[e|dashboard] w'].
Qed.




(** *** Bearer check *)

Lemma dashboardRoute_answered (req : IncomingRequest) (w w' : World) res :
  authMiddleware req w = (Return (Answered res), w') →
  dashboardRoute req w = (Return res, w').
Proof.
  intros Hauth. unfold dashboardRoute. cbv [mbind Js_bind]. by rewrite Hauth.
Qed.

(** C10.  [authMiddleware] never throws.  Whenever it answers by itself
    the status is [401] and the route returns that answer without running
    the dashboard handler; it hands over to the handler only when the
    header starts with [Bearer ], the identity service was discovered, the
    validation call returned and its payload has a truthy [success] and a
    [data.user].  So a missing header, a failed discovery (service absent
    or unhealthy) and a failed or timed-out validation call all end in
    [401]. *)
Theorem authMiddleware_failures_answer_401 (req : IncomingRequest) (w : World) :
  ∃ outcome w',
    authMiddleware req w = (Return outcome, w')
    ∧ (∀ res, outcome = Answered res →
              statusCode res = 401
              ∧ dashboardRoute req w = (Return res, w'))
    ∧ (∀ u, outcome = Next u →
            ∃ authHeader userService response success payload,
              req_headers req !! "authorization" = Some authHeader
              ∧ startsWith authHeader "Bearer " = true
              ∧ discover "user-service" (registryFile w) = Return userService
              ∧ axios (validation userService authHeader) w
                = (Return response, w')
              ∧ get (data response) "success" = Return success
              ∧ truthy success = true
              ∧ get (data response) "data" = Return payload
              ∧ get payload "user" = Return u)
    ∧ ((∀ authHeader, req_headers req !! "authorization" = Some authHeader →
                      startsWith authHeader "Bearer " = false) →
       outcome = Answered tokenRequired ∧ w' = w)
    ∧ (∀ e, discover "user-service" (registryFile w) = Throw e →
            ∃ res, outcome = Answered res ∧ statusCode res = 401 ∧ w' = w)
    ∧ (∀ authHeader userService e w1,
         req_headers req !! "authorization" = Some authHeader →
         startsWith authHeader "Bearer " = true →
         discover "user-service" (registryFile w) = Return userService →
         axios (validation userService authHeader) w = (Throw e, w1) →
         outcome = Answered tokenInvalid ∧ w' = w1).
Proof.
  destruct (authMiddleware req w) as [res w'] eqn:Hrun.
  assert (∃ outcome, res = Return outcome) as [outcome ->].
  { unfold authMiddleware in Hrun. js_unfold.
    repeat (case_match; simplify_eq); by eexists. }
  exists outcome, w'. split; [done|].
  split.
  { intros answer ->. split; [|by apply dashboardRoute_answered].
    unfold authMiddleware in Hrun. js_unfold.
    repeat (case_match; simplify_eq); done. }
  split.
  { intros u ->. unfold authMiddleware in Hrun. js_unfold.
    repeat (case_match; simplify_eq).
    rewrite ?negb_false_iff in *. eexists _, _, _, _, _.
    do 7 (split; [first [eassumption | reflexivity]|]). eassumption. }
  split.
  { intros Hnone. unfold authMiddleware in Hrun. js_unfold.
    destruct (req_headers req !! "authorization") as [authHeader|] eqn:Hh;
      [|by simplify_eq].
    rewrite (Hnone authHeader eq_refl) in Hrun. cbn [negb] in Hrun.
    by simplify_eq. }
  split.
  { intros e He. unfold authMiddleware in Hrun. js_unfold.
    repeat (case_match; simplify_eq); try congruence;
      (eexists; split; [reflexivity|]; split; reflexivity). }
  intros authHeader userService e w1 Hh Hb Hd Ha.
  unfold authMiddleware in Hrun. js_unfold.
  rewrite Hh in Hrun. cbv beta iota in Hrun.
  rewrite Hb in Hrun. cbn [negb] in Hrun. cbv beta iota in Hrun.
  rewrite Hd in Hrun. cbv beta iota in Hrun.
  rewrite Ha in Hrun. by simplify_eq.
Qed.

(** *** Global search *)



End WithWorld.

(** *** Concrete runs *)



(** With the health call answering and the category call failing, the
    item block is reported unhealthy although its counts have already
    been written to the summary. *)
Example dashboard_categories_failure :
  let w := scriptedWorld 0 sampleStore
             [(3, Return itemHealth); (3, Throw serverError);
              (3, Return listHealth)] in
  let d := (aggregateDashboardData JNull w).1 in
  ∃ dashboard,
    d = Return dashboard
    ∧ services dashboard !! "itemService" = Some (unhealthyReport serverError)
    ∧ summary dashboard !! "totalItems" = Some (JNum 7)
    ∧ summary dashboard !! "categories" = Some (JNum 0).
Proof. eexists. split; [by vm_compute|]. repeat split; by vm_compute. Qed.

Lemma authMiddleware_failures_answer_401_witness :
  ∃ res,
    authMiddleware bearerRequest unhealthyIdentityWorld
    = (Return (Answered res), unhealthyIdentityWorld)
    ∧ statusCode res = 401
    ∧ dashboardRoute bearerRequest unhealthyIdentityWorld
      = (Return res, unhealthyIdentityWorld).
Proof.
  destruct (authMiddleware_failures_answer_401 bearerRequest
              unhealthyIdentityWorld)
    as (outcome & w' & Hrun & Hanswer & _ & _ & Hfail & _).
  destruct (Hfail (ServiceUnavailable "user-service") eq_refl)
    as (res & -> & Hstatus & ->).
  exists res. split; [exact Hrun|]. split; [exact Hstatus|].
  exact (proj2 (Hanswer res eq_refl)).
Defined.


(** The requests sent by a search over items, with the list service
    registered and healthy: one, to the item service. *)
Example search_items_requests :
  (performGlobalSearch (JStr "arroz") (JStr "items") searchWorld).1
  = Return {| items := JArr [JStr "Arroz"]; lists := JArr [] |}
  ∧ cfg_url <$> sent (performGlobalSearch (JStr "arroz") (JStr "items")
                        searchWorld).2
    = ["http://localhost:3002/search"]
  ∧ cfg_url <$> sent (performGlobalSearch (JStr "arroz") (JStr "all")
                        searchWorld).2
    = ["http://localhost:3002/search"]
  ∧ sent (performGlobalSearch (JStr "arroz") (JStr "lists") searchWorld).2
    = [].
Proof. repeat split; by vm_compute. Qed.

End AggregatorFacts.

(** ** Further properties of the service registry *)

Module RegistryMore.

Import ServiceRegistry APIGateway.

Lemma services_set_insert (services : gmap string ServiceRecord) name record :
  name ≠ "__proto__" →
  services_set services name record = <[name := record]> services.
Proof.
  intros Hname. unfold services_set.
  destruct (services !! name); [done|].
  by rewrite (proj2 (String.eqb_neq _ _) Hname).
Qed.

Lemma services_set_other (services : gmap string ServiceRecord)
    name other record :
  other ≠ name →
  services_set services name record !! other = services !! other.
Proof.
  intros Hne. unfold services_set.
  destruct (services !! name); [by rewrite lookup_insert_ne|].
  destruct (String.eqb name "__proto__"); [done|].
  by rewrite lookup_insert_ne.
Qed.

(** X1.  A registration under any name other than ["__proto__"] can be
    discovered at once: [discover] returns the record just written, with
    the given location, both stamps, [healthy = true] and the identifier
    of the registering process. *)
Theorem register_then_discover (name : string) (info : ServiceInfo)
    (t1 t2 owner : Z) (file : RegistryFile) :
  name ≠ "__proto__" →
  discover name (register name info t1 t2 owner file)
  = Return {| url := info_url info; version := info_version info;
              endpoints := info_endpoints info;
              registeredAt := t1; lastHealthCheck := t2;
              healthy := true; pid := owner |}.
Proof.
  intros Hname. unfold discover, register. cbn [readRegistry writeRegistry].
  rewrite services_set_insert by done.
  erewrite RegistryFacts.services_get_own by apply lookup_insert_eq.
  reflexivity.
Qed.

Lemma register_then_discover_witness :
  discover "list-service"
    (register "list-service"
       {| info_url := "http://localhost:3003"; info_version := "1.0.0";
          info_endpoints := ["/health"; "/lists"] |} 10 11 4343 Unreadable)
  = Return {| url := "http://localhost:3003"; version := "1.0.0";
              endpoints := ["/health"; "/lists"];
              registeredAt := 10; lastHealthCheck := 11;
              healthy := true; pid := 4343 |}.
Proof.
  apply (register_then_discover "list-service"). discriminate.
Defined.

(** X2.  Registration is an upsert under last-writer-wins: a second
    registration of a name replaces the first one entirely, whoever made
    it, and no registration changes the record of another name. *)
Theorem register_last_writer_wins (name : string) (first second : ServiceInfo)
    (t1 t2 t3 t4 owner1 owner2 : Z) (file : RegistryFile) :
  name ≠ "__proto__" →
  register name second t3 t4 owner2 (register name first t1 t2 owner1 file)
  = register name second t3 t4 owner2 file
  ∧ ∀ other, other ≠ name →
      readRegistry (register name first t1 t2 owner1 file) !! other
      = readRegistry file !! other.
Proof.
  intros Hname. split.
  - unfold register. cbn [readRegistry writeRegistry].
    rewrite !services_set_insert by done. by rewrite insert_insert_eq.
  - intros other Hne. unfold register. cbn [readRegistry writeRegistry].
    by apply services_set_other.
Qed.

Lemma register_last_writer_wins_witness :
  let a := {| info_url := "http://localhost:3001"; info_version := "1.0.0";
              info_endpoints := [] |} in
  let b := {| info_url := "http://10.0.0.7:3001"; info_version := "1.1.0";
              info_endpoints := ["/health"] |} in
  register "user-service" b 30 31 777 (register "user-service" a 10 11 555 Missing)
  = register "user-service" b 30 31 777 Missing.
Proof.
  intros a b.
  apply (register_last_writer_wins "user-service" a b 10 11 30 31 555 777
           Missing).
  discriminate.
Defined.

(** X3.  [unregister] answers whether a record existed, removes exactly
    that record, and a second call then answers [false]. *)
Theorem unregister_reports_existence (name : string) (file : RegistryFile) :
  name ∉ Object_prototype_keys →
  (unregister name file).1
  = bool_decide (is_Some (readRegistry file !! name))
  ∧ readRegistry (unregister name file).2 !! name = None
  ∧ (∀ other, other ≠ name →
       readRegistry (unregister name file).2 !! other
       = readRegistry file !! other)
  ∧ (unregister name (unregister name file).2).1 = false.
Proof.
  intros Hname.
  assert (∀ f, readRegistry f !! name = None → unregister name f = (false, f))
    as Habsent.
  { intros f E. unfold unregister.
    by rewrite RegistryFacts.services_get_regular. }
  destruct (readRegistry file !! name) as [service|] eqn:E.
  - assert (unregister name file
            = (true, Table (delete name (readRegistry file)))) as ->.
    { unfold unregister. by rewrite (RegistryFacts.services_get_own _ _ _ E). }
    cbn [fst snd readRegistry].
    split; [by rewrite bool_decide_eq_true_2|].
    split; [apply lookup_delete_eq|].
    split; [intros other Hne; by apply lookup_delete_ne|].
    rewrite Habsent; [done|]. apply lookup_delete_eq.
  - rewrite (Habsent file E). cbn [fst snd].
    split; [by rewrite bool_decide_eq_false_2; [|intros [? ?]]|].
    split; [done|]. split; [done|]. by rewrite (Habsent file E).
Qed.

Lemma unregister_reports_existence_witness :
  (unregister "item-service"
     (Table {[ "item-service" :=
                 {| url := "http://localhost:3002"; version := "1.0.0";
                    endpoints := []; registeredAt := 1; lastHealthCheck := 2;
                    healthy := true; pid := 9 |} ]})).1 = true.
Proof.
  destruct (unregister_reports_existence "item-service"
              (Table {[ "item-service" :=
                 {| url := "http://localhost:3002"; version := "1.0.0";
                    endpoints := []; registeredAt := 1; lastHealthCheck := 2;
                    healthy := true; pid := 9 |} ]}))
    as [Hfirst _].
  - apply RegistryFacts.regular_name. reflexivity.
  - rewrite Hfirst. reflexivity.
Defined.

Lemma updateHealth_lookup (name other : string) (h : bool) (now : Z)
    (file : RegistryFile) :
  readRegistry (updateHealth name h now file) !! other
  = if decide (other = name)
    then set_health h now <$> readRegistry file !! name
    else readRegistry file !! other.
Proof.
  unfold updateHealth, services_get.
  destruct (readRegistry file !! name) as [service|] eqn:E.
  - cbn [readRegistry writeRegistry]. case_decide as Hd.
    + subst. by rewrite lookup_insert_eq.
    + by rewrite lookup_insert_ne.
  - case_bool_decide; cbn [readRegistry writeRegistry];
      case_decide; subst; by rewrite ?E.
Qed.

(** X4.  [updateHealth] changes one record only, and in it only the
    health flag and the time of the last check; on a name without a
    record it changes nothing that can be read, and on a name that
    [Object.prototype] does not define it does not even write the file. *)
Theorem updateHealth_touches_one_record (name : string) (h : bool) (now : Z)
    (file : RegistryFile) :
  (∀ other,
     readRegistry (updateHealth name h now file) !! other
     = if decide (other = name)
       then (λ service,
               {| url := url service; version := version service;
                  endpoints := endpoints service;
                  registeredAt := registeredAt service;
                  lastHealthCheck := now; healthy := h;
                  pid := pid service |}) <$> readRegistry file !! name
       else readRegistry file !! other)
  ∧ (name ∉ Object_prototype_keys →
     readRegistry file !! name = None →
     updateHealth name h now file = file).
Proof.
  split.
  - intros other. apply updateHealth_lookup.
  - intros Hname E. unfold updateHealth.
    by rewrite RegistryFacts.services_get_regular.
Qed.

Lemma updateHealth_touches_one_record_witness :
  updateHealth "ghost-service" false 99 Missing = Missing.
Proof.
  apply (updateHealth_touches_one_record "ghost-service" false 99 Missing).
  - apply RegistryFacts.regular_name. reflexivity.
  - reflexivity.
Defined.

(** X5.  A record marked unhealthy and then healthy again is discovered
    again, with the fields of the registration intact and the time of the
    second update as its last check. *)
Theorem updateHealth_restores_discovery (name : string) (t1 t2 : Z)
    (file : RegistryFile) (service : ServiceRecord) :
  readRegistry file !! name = Some service →
  discover name (updateHealth name false t1 file)
  = Throw (ServiceUnavailable name)
  ∧ discover name (updateHealth name true t2 (updateHealth name false t1 file))
    = Return {| url := url service; version := version service;
                endpoints := endpoints service;
                registeredAt := registeredAt service;
                lastHealthCheck := t2; healthy := true;
                pid := pid service |}.
Proof.
  intros E. split.
  - by eapply RegistryFacts.discover_after_updateHealth_false.
  - apply RegistryFacts.discover_returns_iff. split; [|done].
    rewrite updateHealth_lookup, decide_True by done.
    rewrite updateHealth_lookup, decide_True by done.
    by rewrite E.
Qed.

Lemma updateHealth_restores_discovery_witness :
  let record := {| url := "http://localhost:3002"; version := "1.0.0";
                   endpoints := []; registeredAt := 1; lastHealthCheck := 2;
                   healthy := true; pid := 9 |} in
  discover "item-service"
    (updateHealth "item-service" false 50
       (Table {[ "item-service" := record ]}))
  = Throw (ServiceUnavailable "item-service").
Proof.
  intros record.
  apply (updateHealth_restores_discovery "item-service" 50 60
           (Table {[ "item-service" := record ]}) record).
  reflexivity.
Defined.

(** X6.  When every stored registration time is a valid time value,
    [listServices] answers one entry per registered name (an entry named
    ["__proto__"] apart, which the answer object cannot hold), each with
    the stored location, flag and owner and with
    [uptime = now - registeredAt]. *)
Theorem listServices_lists_every_record (now : Z) (file : RegistryFile) :
  map_Forall (λ _ service, valid_time (registeredAt service) = true)
    (readRegistry file) →
  ∃ listing,
    listServices now file = Return listing
    ∧ listing !! "__proto__" = None
    ∧ ∀ name, name ≠ "__proto__" →
        listing !! name
        = (λ service,
             {| sum_url := url service; sum_healthy := healthy service;
                sum_registeredAt := registeredAt service;
                uptime := now - registeredAt service;
                sum_pid := pid service |}) <$> readRegistry file !! name.
Proof.
  intros Hvalid. unfold listServices.
  rewrite bool_decide_eq_true_2 by done.
  eexists. split; [reflexivity|]. split.
  - by rewrite lookup_fmap, lookup_delete_eq.
  - intros name Hname. by rewrite lookup_fmap, lookup_delete_ne.
Qed.

Lemma listServices_lists_every_record_witness :
  ∃ listing,
    listServices 5000
      (register "item-service"
         {| info_url := "http://localhost:3002"; info_version := "1.0.0";
            info_endpoints := [] |} 1200 1201 9 Missing)
    = Return listing
    ∧ uptime <$> listing !! "item-service" = Some 3800.
Proof.
  destruct (listServices_lists_every_record 5000
              (register "item-service"
                 {| info_url := "http://localhost:3002";
                    info_version := "1.0.0"; info_endpoints := [] |}
                 1200 1201 9 Missing))
    as (listing & Hrun & _ & Hlookup).
  - apply map_Forall_insert_2; [reflexivity|]. apply map_Forall_empty.
  - exists listing. split; [exact Hrun|].
    rewrite Hlookup by discriminate. reflexivity.
Defined.

(** X7.  One stored registration time outside the range of valid time
    values makes the whole listing fail with a [RangeError]: no service
    is listed. *)
Theorem listServices_invalid_time_fails (now : Z) (file : RegistryFile)
    (name : string) (service : ServiceRecord) :
  readRegistry file !! name = Some service →
  valid_time (registeredAt service) = false →
  listServices now file = Throw RangeError_time.
Proof.
  intros E Hbad. unfold listServices.
  rewrite bool_decide_eq_false_2; [done|].
  intros Hall. specialize (Hall name service E). cbn beta in Hall. congruence.
Qed.

Lemma listServices_invalid_time_fails_witness :
  listServices 5000
    (Table {[ "item-service" :=
                {| url := "http://localhost:3002"; version := "1.0.0";
                   endpoints := []; registeredAt := 9000000000000000;
                   lastHealthCheck := 2; healthy := true; pid := 9 |} ]})
  = Throw RangeError_time.
Proof.
  eapply (listServices_invalid_time_fails 5000 _ "item-service");
    reflexivity.
Defined.

(** X8.  In the statistics the total is the number of healthy records
    plus the number of unhealthy ones. *)
Theorem getStats_total_is_sum (file : RegistryFile) :
  (getStats file).1.1 = ((getStats file).1.2 + (getStats file).2)%nat.
Proof.
  unfold getStats. cbn [fst snd].
  set (services := readRegistry file).
  set (P := λ entry : string * ServiceRecord, healthy entry.2 = true).
  assert (filter (λ entry : string * ServiceRecord, healthy entry.2 = false)
            services
          = filter (λ entry, ¬ P entry) services) as ->.
  { apply map_filter_ext. intros name service _. unfold P. cbn [snd].
    destruct (healthy service); split; congruence. }
  rewrite <- map_size_disj_union by apply map_disjoint_filter_complement.
  by rewrite map_filter_union_complement.
Qed.

(** X9.  As long as no service is registered under the name
    ["hasOwnProperty"], [hasService] tells whether a record exists: it
    answers [true] right after a registration and [false] right after a
    removal.  A service registered under that very name makes
    [hasService] throw for every name asked. *)
Theorem hasService_follows_registrations (name : string) (info : ServiceInfo)
    (t1 t2 owner : Z) (file : RegistryFile) :
  name ≠ "__proto__" →
  name ≠ "hasOwnProperty" →
  readRegistry file !! "hasOwnProperty" = None →
  hasService name file
  = Return (bool_decide (is_Some (readRegistry file !! name)))
  ∧ hasService name (register name info t1 t2 owner file) = Return true
  ∧ hasService name (unregister name file).2 = Return false
  ∧ ∀ asked,
      hasService asked (register "hasOwnProperty" info t1 t2 owner file)
      = Throw (new_Error "services.hasOwnProperty is not a function").
Proof.
  intros Hproto Hown Hfree. split; [|split; [|split]].
  - unfold hasService. by rewrite Hfree.
  - unfold hasService, register. cbn [readRegistry writeRegistry].
    rewrite services_set_other by done. rewrite Hfree.
    rewrite services_set_insert by done.
    by rewrite lookup_insert_eq, bool_decide_eq_true_2.
  - unfold hasService, unregister.
    destruct (services_get (readRegistry file) name) eqn:E;
      cbn [snd readRegistry writeRegistry].
    + rewrite lookup_delete_ne by done. rewrite Hfree.
      rewrite lookup_delete_eq. by rewrite bool_decide_eq_false_2; [|intros [? ?]].
    + rewrite lookup_delete_ne by done. rewrite Hfree.
      rewrite lookup_delete_eq. by rewrite bool_decide_eq_false_2; [|intros [? ?]].
    + rewrite Hfree. unfold services_get in E.
      destruct (readRegistry file !! name); [discriminate E|].
      by rewrite bool_decide_eq_false_2; [|intros [? ?]].
  - intros asked. unfold hasService, register.
    cbn [readRegistry writeRegistry].
    rewrite services_set_insert by discriminate.
    by rewrite lookup_insert_eq.
Qed.

Lemma hasService_follows_registrations_witness :
  hasService "user-service"
    (register "user-service"
       {| info_url := "http://localhost:3001"; info_version := "1.0.0";
          info_endpoints := [] |} 10 11 555 Missing)
  = Return true.
Proof.
  apply (hasService_follows_registrations "user-service" _ 10 11 555 Missing);
    [discriminate | discriminate | reflexivity].
Defined.

(** *** [cleanup] once more *)

Lemma cleanup_fold_no_match currentPid entries acc :
  Forall (λ entry : string * ServiceRecord, pid entry.2 ≠ currentPid) entries →
  foldl (cleanup_entry currentPid) acc entries = acc.
Proof.
  revert acc. induction entries as [|entry entries IH]; intros acc Hall; [done|].
  apply Forall_cons in Hall as [Hentry Hall]. simpl.
  rewrite IH by done. unfold cleanup_entry.
  by rewrite bool_decide_eq_false_2.
Qed.

Lemma cleanup_lookup_cases currentPid file name :
  readRegistry (cleanup currentPid file) !! name =
    match readRegistry file !! name with
    | Some service =>
        if bool_decide (pid service = currentPid) then None else Some service
    | None => None
    end.
Proof.
  unfold cleanup.
  set (services := readRegistry file).
  pose proof (RegistryFacts.cleanup_fold_deletes currentPid
                (map_to_list services) (services, false) name) as Hdel.
  pose proof (RegistryFacts.cleanup_fold_keeps_others currentPid
                (map_to_list services) (services, false) name) as Hkeep.
  pose proof (RegistryFacts.cleanup_fold_unchanged currentPid
                (map_to_list services) (services, false)) as Hsame.
  destruct (foldl (cleanup_entry currentPid) (services, false)
              (map_to_list services)) as [services' changed].
  simpl in *.
  assert (services' !! name =
            match services !! name with
            | Some service =>
                if bool_decide (pid service = currentPid)
                then None else Some service
            | None => None
            end) as Hlookup.
  { destruct (services !! name) as [service|] eqn:E.
    - case_bool_decide as Hpid.
      + apply (Hdel service); [|done]. by apply elem_of_map_to_list.
      + rewrite Hkeep; [done|]. intros s Hin.
        apply elem_of_map_to_list in Hin. congruence.
    - rewrite Hkeep; [done|]. intros s Hin.
      apply elem_of_map_to_list in Hin. congruence. }
  destruct changed; [done|].
  rewrite (Hsame eq_refl) in Hlookup. exact Hlookup.
Qed.

(** X10.  After [cleanup] no record of the exiting process is left, and
    running it again changes nothing.  When the process owns no record,
    [cleanup] does not write at all: the file stays as it was, missing or
    unreadable included. *)
Theorem cleanup_purges_once (currentPid : Z) (file : RegistryFile) :
  map_Forall (λ _ service, pid service ≠ currentPid)
    (readRegistry (cleanup currentPid file))
  ∧ cleanup currentPid (cleanup currentPid file) = cleanup currentPid file
  ∧ (map_Forall (λ _ service, pid service ≠ currentPid) (readRegistry file) →
     cleanup currentPid file = file).
Proof.
  assert (∀ f, map_Forall (λ _ service, pid service ≠ currentPid)
                 (readRegistry f) → cleanup currentPid f = f) as Hnone.
  { intros f Hall. unfold cleanup.
    rewrite cleanup_fold_no_match; [done|].
    apply map_Forall_to_list in Hall.
    eapply Forall_impl; [exact Hall|]. by intros [? ?]. }
  assert (map_Forall (λ _ service, pid service ≠ currentPid)
            (readRegistry (cleanup currentPid file))) as Hgone.
  { intros name service Hlookup. rewrite cleanup_lookup_cases in Hlookup.
    destruct (readRegistry file !! name) as [stored|]; [|done].
    case_bool_decide; [done|]. by simplify_eq. }
  split; [exact Hgone|]. split; [by apply Hnone|apply Hnone].
Qed.

Lemma cleanup_purges_once_witness :
  cleanup 555 Unreadable = Unreadable.
Proof.
  apply (cleanup_purges_once 555 Unreadable). apply map_Forall_empty.
Defined.

(** *** The health sweep *)

Section Sweep.

Context {World : Type}.
Variable Date_now : World → Z.
Variable healthGet : string → World → Result HttpResponse * World.

Lemma healthCheck_entry_world acc entry :
  (healthCheck_entry Date_now healthGet acc entry).2
  = (healthGet (url entry.2 +:+ "/health") acc.2).2.
Proof.
  unfold healthCheck_entry.
  by destruct (healthGet _ acc.2) as [[e|r] w'].
Qed.

Lemma sweep_world entries acc :
  (foldl (healthCheck_entry Date_now healthGet) acc entries).2
  = afterProbes healthGet entries acc.2.
Proof.
  revert acc. induction entries as [|entry entries IH]; intros acc; [done|].
  simpl. rewrite IH. unfold afterProbes. simpl.
  by rewrite healthCheck_entry_world.
Qed.

Lemma healthCheck_entry_lookup acc entry name :
  readRegistry (healthCheck_entry Date_now healthGet acc entry).1 !! name
  = if decide (name = entry.1)
    then set_health
           (match (healthGet (url entry.2 +:+ "/health") acc.2).1 with
            | inr _ => true | inl _ => false end)
           (Date_now (healthGet (url entry.2 +:+ "/health") acc.2).2)
         <$> readRegistry acc.1 !! entry.1
    else readRegistry acc.1 !! name.
Proof.
  unfold healthCheck_entry.
  destruct (healthGet _ acc.2) as [[e|r] w']; cbn [fst snd];
    apply updateHealth_lookup.
Qed.

Lemma sweep_untouched entries acc name :
  name ∉ entries.*1 →
  readRegistry (foldl (healthCheck_entry Date_now healthGet) acc entries).1
    !! name
  = readRegistry acc.1 !! name.
Proof.
  revert acc. induction entries as [|entry entries IH]; intros acc Hout;
    [done|].
  simpl. rewrite fmap_cons, not_elem_of_cons in Hout.
  destruct Hout as [Hne Hout]. rewrite IH by done.
  rewrite healthCheck_entry_lookup. by rewrite decide_False.
Qed.

Lemma sweep_static entries acc name :
  static <$> readRegistry
               (foldl (healthCheck_entry Date_now healthGet) acc entries).1
               !! name
  = static <$> readRegistry acc.1 !! name.
Proof.
  revert acc. induction entries as [|entry entries IH]; intros acc; [done|].
  simpl. rewrite IH. rewrite healthCheck_entry_lookup.
  case_decide as Hd; [|done]. subst.
  by destruct (readRegistry acc.1 !! entry.1).
Qed.

End Sweep.

Section Sweep.

Context {World : Type}.
Variable Date_now : World → Z.
Variable healthGet : string → World → Result HttpResponse * World.

Lemma Object_entries_app pre post (services : gmap string ServiceRecord) :
  Object_entries (pre ++ post)%list services
  = (Object_entries pre services ++ Object_entries post services)%list.
Proof. unfold Object_entries. apply omap_app. Qed.

Lemma Object_entries_names order (services : gmap string ServiceRecord) name :
  name ∉ order → name ∉ (Object_entries order services).*1.
Proof.
  induction order as [|first order IH]; intros Hout; [by apply not_elem_of_nil|].
  apply not_elem_of_cons in Hout as [Hne Hout].
  unfold Object_entries. simpl.
  destruct (services !! first); simpl; [|by apply IH].
  rewrite not_elem_of_cons. split; [done|by apply IH].
Qed.

(** X11.  The sweep probes every entry of its snapshot, one after the
    other: the world it leaves is the world after all these calls,
    whatever each of them answered, so a failed probe stops nothing. *)
Theorem performHealthChecks_probes_every_entry (order : list string)
    (file : RegistryFile) (w : World) :
  (performHealthChecks Date_now healthGet order file w).2
  = afterProbes healthGet (Object_entries order (readRegistry file)) w.
Proof. unfold performHealthChecks. by rewrite sweep_world. Qed.

(** X12.  The sweep adds no record and removes none, and it never changes
    the location, version, endpoints, registration time or owner of a
    record: only health flags and check times move. *)
Theorem performHealthChecks_keeps_registrations (order : list string)
    (file : RegistryFile) (w : World) (name : string) :
  static <$> readRegistry
               (performHealthChecks Date_now healthGet order file w).1 !! name
  = static <$> readRegistry file !! name.
Proof. unfold performHealthChecks. by rewrite sweep_static. Qed.

(** X13.  After the sweep the health flag of a record tells whether its
    own probe answered, and its last check is the time read right after
    that probe: the outcome of the probes made before or after it plays
    no part. *)
Theorem performHealthChecks_flag_is_own_probe (pre post : list string)
    (name : string) (file : RegistryFile) (w : World)
    (service : ServiceRecord) :
  name ∉ pre →
  name ∉ post →
  readRegistry file !! name = Some service →
  let before := afterProbes healthGet
                  (Object_entries pre (readRegistry file)) w in
  let probe := healthGet (url service +:+ "/health") before in
  readRegistry
    (performHealthChecks Date_now healthGet (pre ++ name :: post)%list file w).1
    !! name
  = Some (set_health (match probe.1 with inr _ => true | inl _ => false end)
            (Date_now probe.2) service).
Proof.
  intros Hpre Hpost Hstored before probe.
  unfold performHealthChecks. rewrite Object_entries_app.
  change (name :: post) with ([name] ++ post)%list.
  rewrite Object_entries_app. unfold Object_entries at 2. simpl.
  rewrite Hstored. simpl. rewrite foldl_app. simpl.
  rewrite sweep_untouched by by apply Object_entries_names.
  rewrite healthCheck_entry_lookup. cbn [fst snd].
  rewrite decide_True by done.
  rewrite sweep_untouched by by apply Object_entries_names.
  rewrite sweep_world. cbn [fst snd]. fold before. fold probe.
  by rewrite Hstored.
Qed.

End Sweep.

Lemma performHealthChecks_flag_is_own_probe_witness :
  let w := scriptedWorld 7000 sweepStore
             [(40, Throw ECONNREFUSED); (5, Return okResponse)] in
  let swept :=
    (performHealthChecks clock scripted_healthGet
       (["item-service"] ++ "list-service" :: [])%list sweepStore w).1 in
  (healthy <$> readRegistry swept !! "list-service" = Some true
   ∧ lastHealthCheck <$> readRegistry swept !! "list-service" = Some 7045)
  ∧ healthy <$> readRegistry swept !! "item-service" = Some false.
Proof.
  intros w swept. split.
  - unfold swept.
    rewrite (performHealthChecks_flag_is_own_probe clock scripted_healthGet
               ["item-service"] [] "list-service" sweepStore w
               (sampleRecord "3003" true 4343)).
    + split; reflexivity.
    + rewrite list_elem_of_singleton. discriminate.
    + apply not_elem_of_nil.
    + reflexivity.
  - reflexivity.
Defined.

End RegistryMore.

(** ** Further properties of the gateway *)

Module GatewayMore.

Import ServiceRegistry APIGateway AggregatorFacts.

(** X14.  The proxy strips the public prefix [/api] from every path under
    one of the five forwarded prefixes and keeps the rest of the path,
    query string included. *)
Theorem rewritePath_strips_api (rest : string) :
  rewritePath ("/api/users" +:+ rest) = "/users" +:+ rest
  ∧ rewritePath ("/api/auth" +:+ rest) = "/auth" +:+ rest
  ∧ rewritePath ("/api/items" +:+ rest) = "/items" +:+ rest
  ∧ rewritePath ("/api/categories" +:+ rest) = "/categories" +:+ rest
  ∧ rewritePath ("/api/lists" +:+ rest) = "/lists" +:+ rest.
Proof. destruct rest; repeat split; reflexivity. Qed.

Lemma breaker_entry_at_rest name now cb entered :
  breaker_at_rest cb → breaker_entry name now cb = Return entered →
  breaker_ok entered ∧ state entered ≠ open.
Proof.
  intros [Hstate Hok] Hentry. split.
  - by eapply BreakerFacts.breaker_entry_ok.
  - unfold breaker_entry in Hentry. destruct (state cb) eqn:E.
    + apply (inj inr) in Hentry. subst. by rewrite E.
    + destruct (30000 <? now - lastFailTime cb); [|discriminate Hentry].
      apply (inj inr) in Hentry. by subst.
    + done.
Qed.

Lemma breaker_success_at_rest cb :
  breaker_ok cb → state cb ≠ open → breaker_at_rest (breaker_success cb).
Proof.
  intros Hok Hstate. split; [|by apply BreakerFacts.breaker_success_ok].
  unfold breaker_success. destruct (state cb) eqn:E; simpl; by rewrite ?E.
Qed.

Lemma breaker_failure_at_rest now cb :
  breaker_ok cb → state cb ≠ open → breaker_at_rest (breaker_failure now cb).
Proof.
  intros Hok Hstate. split; [|by apply BreakerFacts.breaker_failure_ok].
  unfold breaker_failure. cbn [state].
  destruct (3 <=? S (failureCount cb))%nat eqn:Hcount; [done|].
  destruct (state cb) eqn:E; [done|done|].
  apply Nat.leb_gt in Hcount.
  assert (3 ≤ failureCount cb)%nat by (apply Hok; by rewrite E). lia.
Qed.

Section WithWorld.

Context {World : Type} `{Runtime World}.

(** X15.  The breaker is transparent: a call is either refused with the
    circuit-open error, which happens exactly when the breaker is open
    and at most 30 000 ms have passed since the last failure, and then
    the operation has not run; or the caller gets the operation's own
    result or error, unchanged, in the world the operation left. *)
Theorem executeWithCircuitBreaker_is_transparent {A} (name : string)
    (operation : Js World A) (cbs : gmap string CircuitBreaker) (w : World) :
  let cb := (getCircuitBreaker name cbs).1 in
  let run := executeWithCircuitBreaker name operation cbs w in
  if BreakerState_eqb (state cb) open
     && (Date_now w - lastFailTime cb <=? 30000)
  then run = (Throw (CircuitOpen name), (getCircuitBreaker name cbs).2, w)
  else (run.1.1, run.2) = operation w.
Proof.
  intros cb run. subst run.
  rewrite BreakerFacts.executeWithCircuitBreaker_unfold. cbv zeta.
  fold cb. unfold breaker_entry.
  destruct (state cb) eqn:E; cbn [BreakerState_eqb andb].
  - cbv [Return]. by destruct (operation w) as [[e|r] w'].
  - destruct (Date_now w - lastFailTime cb <=? 30000) eqn:Hcool.
    + apply Z.leb_le in Hcool. by rewrite (proj2 (Z.ltb_ge _ _)) by lia.
    + apply Z.leb_gt in Hcool. rewrite (proj2 (Z.ltb_lt _ _)) by lia.
      cbv [Return]. by destruct (operation w) as [[e|r] w'].
  - cbv [Return]. by destruct (operation w) as [[e|r] w'].
Qed.

(** X17.  A proxied request for one service never touches the breaker of
    another service. *)
Theorem proxyToService_keeps_other_breakers (name other : string)
    (req : IncomingRequest) (cbs : gmap string CircuitBreaker) (w : World) :
  other ≠ name →
  (proxyToService name req cbs w).1.2 !! other = cbs !! other.
Proof.
  intros Hne. unfold proxyToService.
  destruct (discover name (registryFile w)) as [e|service]; [done|].
  pose proof (BreakerFacts.executeWithCircuitBreaker_frame name other
                (axios (forwarded req
                          (url service +:+ rewritePath (originalUrl req))))
                cbs w Hne) as Hframe.
  destruct (executeWithCircuitBreaker _ _ cbs w) as [[[e|r] cbs'] w'];
    exact Hframe.
Qed.

Lemma executeWithCircuitBreaker_at_rest {A} name (operation : Js World A)
    cbs w :
  map_Forall (λ _, breaker_at_rest) cbs →
  map_Forall (λ _, breaker_at_rest)
    (executeWithCircuitBreaker name operation cbs w).1.2.
Proof.
  intros Hall.
  assert (map_Forall (λ _, breaker_at_rest) (getCircuitBreaker name cbs).2)
    as Htable.
  { unfold getCircuitBreaker. destruct (cbs !! name); simpl; [done|].
    apply map_Forall_insert_2; [|done].
    split; [discriminate|]. intros Hne. by destruct Hne. }
  assert (breaker_at_rest (getCircuitBreaker name cbs).1) as Hcurrent.
  { apply (Htable name). apply BreakerFacts.getCircuitBreaker_lookup. }
  rewrite BreakerFacts.executeWithCircuitBreaker_unfold. cbv zeta.
  destruct (breaker_entry _ _ _) as [refused|entered] eqn:Hentry; [done|].
  destruct (breaker_entry_at_rest _ _ _ _ Hcurrent Hentry) as [Hok Hstate].
  destruct (operation w) as [[e|r] w']; cbn [fst snd];
    apply map_Forall_insert_2;
    auto using breaker_success_at_rest, breaker_failure_at_rest.
Qed.

(** X18.  Between two requests every breaker of the gateway is closed or
    open, never half-open, and a breaker that is open has counted at
    least three failures: a proxied request (and any call through a
    breaker) keeps this, and the empty map the gateway starts with has
    it. *)
Theorem breakers_rest_closed_or_open (name : string) (req : IncomingRequest)
    (cbs : gmap string CircuitBreaker) (w : World) :
  map_Forall (λ _, breaker_at_rest) cbs →
  map_Forall (λ _, breaker_at_rest) (proxyToService name req cbs w).1.2.
Proof.
  intros Hall. unfold proxyToService.
  destruct (discover name (registryFile w)) as [e|service]; [done|].
  pose proof (executeWithCircuitBreaker_at_rest name
                (axios (forwarded req
                          (url service +:+ rewritePath (originalUrl req))))
                cbs w Hall) as Hrest.
  destruct (executeWithCircuitBreaker _ _ cbs w) as [[[e|r] cbs'] w'];
    exact Hrest.
Qed.

(** X16.  Three forwarded requests in a row that fail, whatever the
    failure (a downstream error status that is relayed to the caller
    counts like a refused connection), open the circuit of a service
    whose breaker had counted nothing: each of the three is answered from
    its own error, and a fourth request at most 30 000 ms after the third
    failure is answered [503] with the circuit-open field without
    anything being sent. *)
Theorem three_failed_forwards_open_circuit (name : string)
    (req1 req2 req3 req4 : IncomingRequest)
    (cbs0 : gmap string CircuitBreaker)
    (w1 w2 w3 w4 w1' w2' w3' : World) (s1 s2 s3 s4 : ServiceRecord)
    (e1 e2 e3 : Error) :
  state (getCircuitBreaker name cbs0).1 = closed →
  failureCount (getCircuitBreaker name cbs0).1 = 0%nat →
  discover name (registryFile w1) = Return s1 →
  discover name (registryFile w2) = Return s2 →
  discover name (registryFile w3) = Return s3 →
  discover name (registryFile w4) = Return s4 →
  axios (forwarded req1 (url s1 +:+ rewritePath (originalUrl req1))) w1
  = (Throw e1, w1') →
  axios (forwarded req2 (url s2 +:+ rewritePath (originalUrl req2))) w2
  = (Throw e2, w2') →
  axios (forwarded req3 (url s3 +:+ rewritePath (originalUrl req3))) w3
  = (Throw e3, w3') →
  Date_now w4 - Date_now w3' ≤ 30000 →
  ∃ cbs1 cbs2 cbs3,
    proxyToService name req1 cbs0 w1 = (proxyError name e1, cbs1, w1')
    ∧ proxyToService name req2 cbs1 w2 = (proxyError name e2, cbs2, w2')
    ∧ proxyToService name req3 cbs2 w3 = (proxyError name e3, cbs3, w3')
    ∧ proxyToService name req4 cbs3 w4
      = (json 503
           (JObj {[ "success" := JBool false;
                    "message" := JStr "Serviço temporariamente indisponível";
                    "service" := JStr name;
                    "error" := JStr "Circuit breaker aberto" ]}),
         cbs3, w4).
Proof.
  intros Hclosed Hzero D1 D2 D3 D4 A1 A2 A3 Hcool.
  destruct (getCircuitBreaker name cbs0) as [cb0 table] eqn:Hget.
  cbn [fst] in Hclosed, Hzero.
  set (cb1 := breaker_failure (Date_now w1') cb0).
  set (cb2 := breaker_failure (Date_now w2') cb1).
  set (cb3 := breaker_failure (Date_now w3') cb2).
  exists (<[name := cb1]> table), (<[name := cb2]> (<[name := cb1]> table)),
    (<[name := cb3]> (<[name := cb2]> (<[name := cb1]> table))).
  assert (state cb1 = closed ∧ failureCount cb1 = 1%nat) as [Hs1 Hc1].
  { unfold cb1, breaker_failure. cbn [state failureCount].
    by rewrite Hzero, Hclosed. }
  assert (state cb2 = closed ∧ failureCount cb2 = 2%nat) as [Hs2 Hc2].
  { unfold cb2, breaker_failure. cbn [state failureCount].
    by rewrite Hc1, Hs1. }
  assert (state cb3 = open ∧ lastFailTime cb3 = Date_now w3') as [Hs3 Ht3].
  { unfold cb3, breaker_failure. cbn [state failureCount lastFailTime].
    by rewrite Hc2. }
  split; [|split; [|split]].
  - rewrite (ProxyFacts.proxyToService_discovered _ _ _ _ _ D1).
    rewrite BreakerFacts.executeWithCircuitBreaker_unfold, Hget.
    cbn [fst snd]. unfold breaker_entry. by rewrite Hclosed, A1.
  - rewrite (ProxyFacts.proxyToService_discovered _ _ _ _ _ D2).
    rewrite BreakerFacts.executeWithCircuitBreaker_unfold.
    rewrite (BreakerFacts.getCircuitBreaker_present _ _ cb1)
      by apply lookup_insert_eq.
    cbn [fst snd]. unfold breaker_entry. by rewrite Hs1, A2.
  - rewrite (ProxyFacts.proxyToService_discovered _ _ _ _ _ D3).
    rewrite BreakerFacts.executeWithCircuitBreaker_unfold.
    rewrite (BreakerFacts.getCircuitBreaker_present _ _ cb2)
      by apply lookup_insert_eq.
    cbn [fst snd]. unfold breaker_entry. by rewrite Hs2, A3.
  - apply (ProxyFacts.proxyToService_circuit_open name req4 _ w4 s4 cb3);
      [done|apply lookup_insert_eq|done|by rewrite Ht3].
Qed.

End WithWorld.

Lemma proxyToService_keeps_other_breakers_witness :
  (proxyToService "item-service" (sampleRequest "/api/items")
     (breakerOf open 3 1000)
     (scriptedWorld 5000 upStore [(5, Throw serverError)])).1.2 !! "svc-b"
  = Some {| state := open; failureCount := 3; lastFailTime := 1000 |}.
Proof.
  rewrite (proxyToService_keeps_other_breakers "item-service" "svc-b");
    [reflexivity | discriminate].
Defined.

Lemma breakers_rest_closed_or_open_witness :
  map_Forall (λ _, breaker_at_rest)
    (proxyToService "item-service" (sampleRequest "/api/items") ∅
       (scriptedWorld 5000 upStore [(5, Throw serverError)])).1.2.
Proof.
  apply (breakers_rest_closed_or_open "item-service"). apply map_Forall_empty.
Defined.

Lemma three_failed_forwards_open_circuit_witness :
  let req := sampleRequest "/api/items/42" in
  let w1 := scriptedWorld 0 upStore
              [(5, Throw notFoundError); (5, Throw notFoundError);
               (5, Throw notFoundError); (5, Return okResponse)] in
  let call := axios (forwarded req "http://localhost:3002/items/42") in
  let w2 := (call w1).2 in
  let w3 := (call w2).2 in
  let w4 := (call w3).2 in
  statusCode (proxyError "item-service" notFoundError) = 404
  ∧ ∃ cbs3,
      proxyToService "item-service" req cbs3 w4
      = (json 503
           (JObj {[ "success" := JBool false;
                    "message" := JStr "Serviço temporariamente indisponível";
                    "service" := JStr "item-service";
                    "error" := JStr "Circuit breaker aberto" ]}),
         cbs3, w4)
      ∧ length (sent w4) = 3%nat.
Proof.
  intros req w1 call w2 w3 w4. split; [reflexivity|].
  destruct (three_failed_forwards_open_circuit "item-service" req req req req
              ∅ w1 w2 w3 w4 w2 w3 w4
              (sampleRecord "3002" true 4242) (sampleRecord "3002" true 4242)
              (sampleRecord "3002" true 4242) (sampleRecord "3002" true 4242)
              notFoundError notFoundError notFoundError)
    as (cbs1 & cbs2 & cbs3 & _ & _ & _ & H4);
    try reflexivity.
  - simpl. lia.
  - exists cbs3. split; [exact H4|reflexivity].
Defined.

Section WithWorld.

Context {World : Type} `{Runtime World}.


(** X20.  The search route answers [400] without sending anything when
    the query parameter [q] is missing or empty, and [200] otherwise,
    whatever happens to the item service: its [500] branch is never
    taken. *)
Theorem searchRoute_answers_400_or_200 (req : IncomingRequest) (w : World) :
  let q := default JUndefined (query req !! "q") in
  let type := match query req !! "type" with
              | None | Some JUndefined => JStr "all"
              | Some t => t
              end in
  if truthy q
  then ∃ found w',
         searchRoute req w
         = (Return
              (json 200
                 (JObj {[ "success" := JBool true;
                          "data" :=
                            JObj {[ "query" := q; "type" := type;
                                    "results" :=
                                      JObj {[ "items" := found;
                                              "lists" := JArr [] ]} ]} ]})),
            w')
  else ∃ res, searchRoute req w = (Return res, w) ∧ statusCode res = 400.
Proof.
  intros q type. unfold searchRoute. fold q. fold type.
  destruct (truthy q); cbn [negb]; [|by eexists].
  unfold performGlobalSearch. js_unfold.
  repeat (case_match; simplify_eq); by eexists _, _.
Qed.

Lemma authMiddleware_outcomes (req : IncomingRequest) (w : World) :
  ∃ outcome w',
    authMiddleware req w = (Return outcome, w')
    ∧ ∀ res, outcome = Answered res → statusCode res = 401.
Proof.
  destruct (authMiddleware req w) as [out w'] eqn:Hrun.
  unfold authMiddleware in Hrun. js_unfold.
  repeat (case_match; simplify_eq);
    (eexists _, _; split; [done|]); intros ? ?; by simplify_eq.
Qed.

(** Two results of the same run of the bearer check are the same. *)
Ltac same_outcome Hfirst Hsecond :=
  rewrite Hfirst in Hsecond; cbv [Return] in Hsecond; simplify_eq.

(** X21.  The dashboard route never throws and answers [401], [200] or
    [500] only.  A request the bearer check stops is answered [401] by
    the check.  A request it lets through is answered [200] whenever the
    field [user] of the dashboard can be built, whatever the services do:
    no outage can turn the answer into an error status.  It is answered
    [500] exactly when building that field throws (a conversion of
    [firstName] or [lastName] fails), and then nothing is asked of any
    service after the validation. *)
Theorem dashboardRoute_answers_401_200_or_500 (req : IncomingRequest)
    (w : World) :
  ∃ res w',
    dashboardRoute req w = (Return res, w')
    ∧ (statusCode res = 401 ∨ statusCode res = 200 ∨ statusCode res = 500)
    ∧ (∀ answer w1,
         authMiddleware req w = (Return (Answered answer), w1) →
         res = answer ∧ w' = w1 ∧ statusCode res = 401)
    ∧ (∀ u w1 field,
         authMiddleware req w = (Return (Next u), w1) →
         dashboardUser u = Return field →
         statusCode res = 200)
    ∧ (∀ u w1 error,
         authMiddleware req w = (Return (Next u), w1) →
         dashboardUser u = Throw error →
         res = json 500 (JObj {[ "success" := JBool false;
                                 "message" :=
                                   JStr "Erro ao carregar dashboard" ]})
         ∧ w' = w1).
Proof.
  destruct (authMiddleware_outcomes req w) as (outcome & w1 & Hauth & H401).
  destruct outcome as [u|res].
  - pose proof (dashboardRoute_next req u w w1 Hauth) as Hroute.
    destruct (dashboardUser u) as [error|field] eqn:Hfield.
    + rewrite (aggregateDashboardData_throws u error w1 Hfield) in Hroute.
      eexists _, _. split; [exact Hroute|].
      split; [right; right; reflexivity|].
      split; [intros answer w2 H2; same_outcome Hauth H2|].
      split.
      * intros u' w2 field H2 Hfield'. same_outcome Hauth H2.
        rewrite Hfield in Hfield'. discriminate Hfield'.
      * intros u' w2 error' H2 _. by same_outcome Hauth H2.
    + pose proof (aggregateDashboardData_steps u field w1 Hfield) as Hsteps.
      cbv zeta in Hsteps. rewrite Hsteps in Hroute.
      eexists _, _. split; [exact Hroute|].
      split; [right; left; reflexivity|].
      split; [intros answer w2 H2; same_outcome Hauth H2|].
      split; [reflexivity|].
      intros u' w2 error H2 Hfield'. same_outcome Hauth H2.
      rewrite Hfield in Hfield'. discriminate Hfield'.
  - exists res, w1. split; [by apply dashboardRoute_answered|].
    split; [left; by apply H401|].
    split.
    + intros answer w2 H2. same_outcome Hauth H2. by auto.
    + split; intros u w2 x H2; same_outcome Hauth H2.
Qed.

End WithWorld.


Section WithWorld.

Context {World : Type} `{Runtime World}.

(** X22.  In the list block of the dashboard the request for the lists
    of the authenticated user is best effort.  Once the health call has
    answered for a truthy principal, the list service is reported
    [{ status: "healthy", listCount, activeLists }] and both counts are
    in the summary, whatever becomes of that request.  When the
    conversion of the token (or of the empty string, for a falsy token)
    throws, nothing is sent and [userLists] is set to zero.  Otherwise
    one [GET] goes to [/lists] of the list service with the header
    [Authorization: Bearer token] and a timeout of five seconds; when it
    fails, or its reply has no payload to measure, [userLists] is set to
    zero, and when it answers, [userLists] is the length of the
    payload. *)
Theorem dashboard_user_lists_are_best_effort (u : JsVal) (d : Dashboard)
    (w wp : World) (listService : ServiceRecord) (r : HttpResponse)
    (n1 n2 : JsVal) :
  truthy u = true →
  discover "list-service" (registryFile w) = Return listService →
  axios_get (url listService +:+ "/health") 5000 w = (Return r, wp) →
  countOf r "listCount" = Return n1 →
  countOf r "activeLists" = Return n2 →
  ∃ d' w',
    listSection u (d, w) = (Return (), (d', w'))
    ∧ services d' !! "listService"
      = Some (JObj {[ "status" := JStr "healthy";
                      "listCount" := n1; "activeLists" := n2 ]})
    ∧ summary d' !! "totalLists" = Some n1
    ∧ summary d' !! "activeLists" = Some n2
    ∧ match ToString Number_toString
              (or_else (get_opt u "token") (JStr EmptyString)) with
      | inl _ => w' = wp ∧ summary d' !! "userLists" = Some (JNum 0)
      | inr token =>
          let request :=
            {| method := "get";
               cfg_url := url listService +:+ "/lists";
               cfg_data := JUndefined;
               cfg_headers :=
                 {[ "Authorization" := JStr ("Bearer " +:+ token) ]};
               params := ∅; timeout := 5000 |} in
          w' = (axios request wp).2
          ∧ summary d' !! "userLists"
            = Some match (axios request wp).1 with
                   | inr reply =>
                       match lengthOf reply with
                       | inr n => n
                       | inl _ => JNum 0
                       end
                   | inl _ => JNum 0
                   end
      end.
Proof.
  intros Hu Hd Hh H1 H2.
  destruct (listSection u (d, w)) as [res [d' w']] eqn:Hrun.
  unfold listSection in Hrun. unfold userListsRequest in Hrun. js_unfold.
  rewrite Hd in Hrun. cbv beta iota in Hrun. cbn [fst snd] in Hrun.
  rewrite Hh in Hrun. cbv beta iota in Hrun.
  rewrite H1, H2 in Hrun. cbv beta iota in Hrun. cbn [fst snd] in Hrun.
  rewrite Hu in Hrun. cbv beta iota in Hrun. cbn [fst snd] in Hrun.
  destruct (ToString Number_toString
              (or_else (get_opt u "token") (JStr EmptyString)))
    as [error|token]; cbv beta iota in Hrun; cbn [fst snd] in Hrun.
  - simplify_eq. eexists _, _. split; [reflexivity|].
    cbn [fst snd user services summary].
    repeat (rewrite lookup_insert_eq || rewrite lookup_insert_ne by done).
    repeat split; done.
  - cbv zeta.
    destruct (axios _ wp) as [[e|reply] wq]; cbv beta iota in Hrun;
      cbn [fst snd] in *;
      [|destruct (lengthOf reply) as [e|n]; cbv beta iota in Hrun];
      simplify_eq; (eexists _, _; split; [reflexivity|]);
      cbn [fst snd user services summary];
      repeat (rewrite lookup_insert_eq || rewrite lookup_insert_ne by done);
      repeat split; done.
Qed.

(** X23.  In the item block the category request shares the failure
    boundary of the health call: when the health call has answered and
    the category request then fails, the item service is reported
    unhealthy with that error, while the item counts already written to
    the summary stay and the category count keeps the value it had. *)
Theorem dashboard_category_failure_keeps_counts (d : Dashboard)
    (w wp wq : World) (itemService : ServiceRecord) (r : HttpResponse)
    (n1 n2 : JsVal) (e : Error) :
  discover "item-service" (registryFile w) = Return itemService →
  axios_get (url itemService +:+ "/health") 5000 w = (Return r, wp) →
  countOf r "itemCount" = Return n1 →
  countOf r "activeItems" = Return n2 →
  axios_get (url itemService +:+ "/categories") 5000 wp = (Throw e, wq) →
  ∃ d',
    itemSection (d, w) = (Return (), (d', wq))
    ∧ services d' !! "itemService" = Some (unhealthyReport e)
    ∧ summary d' !! "totalItems" = Some n1
    ∧ summary d' !! "activeItems" = Some n2
    ∧ summary d' !! "categories" = summary d !! "categories".
Proof.
  intros Hd Hh H1 H2 Hc.
  destruct (itemSection (d, w)) as [res [d' w']] eqn:Hrun.
  unfold itemSection in Hrun. js_unfold.
  rewrite Hd in Hrun. cbv beta iota in Hrun. cbn [fst snd] in Hrun.
  rewrite Hh in Hrun. cbv beta iota in Hrun.
  rewrite H1, H2 in Hrun. cbv beta iota in Hrun. cbn [fst snd] in Hrun.
  rewrite Hc in Hrun. cbv beta iota in Hrun. cbn [fst snd] in Hrun.
  simplify_eq. eexists. split; [reflexivity|].
  cbn [user services summary].
  repeat (rewrite lookup_insert_eq || rewrite lookup_insert_ne by done).
  done.
Qed.

(** X24.  For a caller without a principal the list block stops after the
    health call: the world it leaves is the world after the discovery and
    that call, so no request for user lists is sent, and [userLists] is
    left as it was. *)
Theorem anonymous_dashboard_skips_user_lists (u : JsVal) (d : Dashboard)
    (w : World) :
  truthy u = false →
  (listSection u (d, w)).2.2 = (healthProbe "list-service" w).2
  ∧ summary (listSection u (d, w)).2.1 !! "userLists"
    = summary d !! "userLists".
Proof.
  intros Hu.
  destruct (listSection u (d, w)) as [res [d' w']] eqn:Hrun.
  unfold listSection in Hrun. js_unfold. rewrite Hu in Hrun.
  repeat (case_match; simplify_eq); cbn [user services summary fst snd];
    repeat (rewrite lookup_insert_eq || rewrite lookup_insert_ne by done);
    done.
Qed.

End WithWorld.

Lemma dashboardRoute_answers_401_200_or_500_witness :
  (dashboardRoute bearerRequest unnamedPrincipalWorld).1
  = Return (json 500 (JObj {[ "success" := JBool false;
                              "message" :=
                                JStr "Erro ao carregar dashboard" ]}))
  ∧ (dashboardRoute bearerRequest unnamedPrincipalWorld).2
    = (authMiddleware bearerRequest unnamedPrincipalWorld).2.
Proof.
  destruct (dashboardRoute_answers_401_200_or_500 bearerRequest
              unnamedPrincipalWorld)
    as (res & w' & Hrun & _ & _ & _ & Hthrown).
  assert (authMiddleware bearerRequest unnamedPrincipalWorld
          = (Return (Next unnamedPrincipal),
             (authMiddleware bearerRequest unnamedPrincipalWorld).2))
    as Hauth by reflexivity.
  assert (dashboardUser unnamedPrincipal = Throw TypeError_convert)
    as Hfield by reflexivity.
  destruct (Hthrown _ _ _ Hauth Hfield) as [-> ->].
  by rewrite Hrun.
Defined.

Lemma dashboard_user_lists_are_best_effort_witness :
  let w := scriptedWorld 0 sampleStore
             [(3, Return listHealth); (3, Return listsReply)] in
  (∃ d' w',
     (listSection principal (initialDashboard JNull, w)).2 = (d', w')
     ∧ services d' !! "listService"
       = Some (JObj {[ "status" := JStr "healthy";
                       "listCount" := JNum 4; "activeLists" := JNum 2 ]})
     ∧ summary d' !! "userLists" = Some (JNum 3)
     ∧ cfg_url <$> sent w'
       = ["http://localhost:3003/health"; "http://localhost:3003/lists"])
  ∧ (∃ d' w',
       (listSection opaqueTokenPrincipal (initialDashboard JNull, w)).2
       = (d', w')
       ∧ services d' !! "listService"
         = Some (JObj {[ "status" := JStr "healthy";
                         "listCount" := JNum 4; "activeLists" := JNum 2 ]})
       ∧ summary d' !! "userLists" = Some (JNum 0)
       ∧ cfg_url <$> sent w' = ["http://localhost:3003/health"]).
Proof.
  intros w. split.
  - destruct (dashboard_user_lists_are_best_effort principal
                (initialDashboard JNull) w
                (axios_get "http://localhost:3003/health" 5000 w).2
                (sampleRecord "3003" true 4343) listHealth (JNum 4) (JNum 2))
      as (d' & w' & Hrun & Hs & _ & _ & Hw & Hl); try reflexivity.
    exists d', w'. split; [by rewrite Hrun|]. split; [exact Hs|].
    split; [exact Hl|]. by rewrite Hw.
  - destruct (dashboard_user_lists_are_best_effort opaqueTokenPrincipal
                (initialDashboard JNull) w
                (axios_get "http://localhost:3003/health" 5000 w).2
                (sampleRecord "3003" true 4343) listHealth (JNum 4) (JNum 2))
      as (d' & w' & Hrun & Hs & _ & _ & Hw & Hl); try reflexivity.
    exists d', w'. split; [by rewrite Hrun|]. split; [exact Hs|].
    split; [exact Hl|]. by rewrite Hw.
Defined.

Lemma dashboard_category_failure_keeps_counts_witness :
  let w := scriptedWorld 0 sampleStore
             [(3, Return itemHealth); (3, Throw serverError)] in
  ∃ d',
    (itemSection (initialDashboard JNull, w)).2.1 = d'
    ∧ services d' !! "itemService" = Some (unhealthyReport serverError)
    ∧ summary d' !! "totalItems" = Some (JNum 7)
    ∧ summary d' !! "categories" = Some (JNum 0).
Proof.
  intros w.
  destruct (dashboard_category_failure_keeps_counts (initialDashboard JNull)
              w (axios_get "http://localhost:3002/health" 5000 w).2
              (axios_get "http://localhost:3002/categories" 5000
                 (axios_get "http://localhost:3002/health" 5000 w).2).2
              (sampleRecord "3002" true 4242) itemHealth (JNum 7) (JNum 5)
              serverError)
    as (d' & Hrun & Hs & Ht & _ & Hc); try reflexivity.
  exists d'. split; [by rewrite Hrun|]. split; [exact Hs|].
  split; [exact Ht|]. rewrite Hc. reflexivity.
Defined.

Lemma anonymous_dashboard_skips_user_lists_witness :
  let w := scriptedWorld 0 sampleStore
             [(3, Return listHealth); (3, Return listsReply)] in
  cfg_url <$> sent (listSection JNull (initialDashboard JNull, w)).2.2
  = ["http://localhost:3003/health"].
Proof.
  intros w.
  rewrite (proj1 (anonymous_dashboard_skips_user_lists JNull
                    (initialDashboard JNull) w eq_refl)).
  reflexivity.
Defined.

End GatewayMore.
